(** * Phoenix embedding page: the visualization state engine

    A shallow embedding of [app/src/pages/embedding/EmbeddingPage.tsx]:
    the point normalizer ([coordinatesToThreeDimensionalPoint],
    [allSourceData]), the request variables assembled by [EmbeddingMain],
    the request lifecycle driven by its effect, the click and tab handlers of
    [ClustersPanelContents] and the metric resolver [getClusterMetricName].

    JavaScript values are modelled as follows.
    - a [number] is kept abstract (a type parameter): the page only moves
      numbers around, it never computes with them;
    - a thrown exception is the left summand of [result];
    - [null] / [undefined] is [None];
    - a [Set<string>] is a [gset string];
    - the zustand store of [@phoenix/store] is a record that the mutators
      replace as a whole. *)

From stdpp Require Import base strings gmap list.
From Stdlib Require Import ZArith.

Open Scope string_scope.
Open Scope list_scope.

(** ** Exceptions *)

(** What a [throw] carries: [Error message] is [new Error(message)];
    [TypeError] is a property read on [undefined]; [Unreachable] is the abort
    of [assertUnreachable]. *)
Inductive exn : Type :=
  | Error (message : string)
  | TypeError
  | Unreachable.

(** A computation that returns ([inr]) or throws ([inl]). *)
Definition result (A : Type) : Type := (exn + A)%type.

Definition throw {A : Type} (e : exn) : result A := inl e.

#[global] Instance result_ret : MRet result := fun A a => inr a.

#[global] Instance result_bind : MBind result := fun A B k m =>
  match m with
  | inl e => inl e
  | inr a => k a
  end.

(** [Array.prototype.map] with a callback that may throw: elements are
    visited in order and the first exception ends the whole call. *)
Fixpoint mapE {A B : Type} (f : A -> result B) (l : list A) : result (list B) :=
  match l with
  | [] => mret []
  | a :: l' => b ← f a; bs ← mapE f l'; mret (b :: bs)
  end.

(** Reading a property of a value that may be [undefined]. *)
Definition read {A : Type} (o : option A) : result A :=
  match o with
  | Some a => mret a
  | None => throw TypeError
  end.

Definition returns {A : Type} (m : result A) : Prop := exists a, m = inr a.
Definition throws {A : Type} (m : result A) : Prop := exists e, m = inl e.

(** ** The response payload (EmbeddingPageUMAPQuery) *)

(** The [coordinates] union of the query: [... on Point3D { x y z }],
    [... on Point2D { x y }]. *)
Inductive Coordinates (number : Type) : Type :=
  | Point2D (x y : number)
  | Point3D (x y z : number).
Arguments Point2D {number} x y.
Arguments Point3D {number} x y z.

Definition __typename {number : Type} (c : Coordinates number) : string :=
  match c with
  | Point2D _ _ => "Point2D"
  | Point3D _ _ _ => "Point3D"
  end.

Record EmbeddingMetadata : Type := {
  linkToData : option string;
  rawData : option string
}.

Record EventMetadata (number : Type) : Type := {
  predictionId : option string;
  predictionLabel : option string;
  actualLabel : option string;
  predictionScore : option number;
  actualScore : option number
}.
Arguments predictionId {number}.
Arguments predictionLabel {number}.
Arguments actualLabel {number}.
Arguments predictionScore {number}.
Arguments actualScore {number}.

(** One item of [data], [referenceData] or [corpusData]. *)
Record UMAPPointsEntry (number : Type) : Type := {
  entry_id : string;
  entry_eventId : string;
  entry_coordinates : Coordinates number;
  entry_embeddingMetadata : EmbeddingMetadata;
  entry_eventMetadata : EventMetadata number
}.
Arguments entry_id {number}.
Arguments entry_eventId {number}.
Arguments entry_coordinates {number}.
Arguments entry_embeddingMetadata {number}.
Arguments entry_eventMetadata {number}.

Record MetricValues (number : Type) : Type := {
  primaryValue : option number;
  referenceValue : option number
}.
Arguments primaryValue {number}.
Arguments referenceValue {number}.

Record Cluster (number : Type) : Type := {
  cluster_id : string;
  cluster_eventIds : list string;
  driftRatio : option number;
  primaryToCorpusRatio : option number;
  cluster_dataQualityMetric : option (MetricValues number);
  cluster_performanceMetric : option (MetricValues number)
}.
Arguments cluster_id {number}.
Arguments cluster_eventIds {number}.
Arguments driftRatio {number}.
Arguments primaryToCorpusRatio {number}.
Arguments cluster_dataQualityMetric {number}.
Arguments cluster_performanceMetric {number}.

Record ContextRetrieval (number : Type) : Type := {
  queryId : string;
  documentId : string;
  relevance : option number
}.
Arguments queryId {number}.
Arguments documentId {number}.
Arguments relevance {number}.

(** [data.embedding?.UMAPPoints]: the three point arrays, the clusters and
    the retrievals, each already defaulted to [[]] by [?? []]. *)
Record UMAPPoints (number : Type) : Type := {
  data : list (UMAPPointsEntry number);
  referenceData : list (UMAPPointsEntry number);
  corpusData : list (UMAPPointsEntry number);
  clusters : list (Cluster number);
  contextRetrievals : list (ContextRetrieval number)
}.
Arguments data {number}.
Arguments referenceData {number}.
Arguments corpusData {number}.
Arguments clusters {number}.
Arguments contextRetrievals {number}.

(** ** The normalized point *)

Record MetaData : Type := { metaData_id : string }.

(** An element of [allSourceData]: [{...d, position, metaData}]. *)
Record Point (number : Type) : Type := {
  point_id : string;
  point_eventId : string;
  point_coordinates : Coordinates number;
  point_embeddingMetadata : EmbeddingMetadata;
  point_eventMetadata : EventMetadata number;
  position : list number;
  metaData : MetaData
}.
Arguments point_id {number}.
Arguments point_eventId {number}.
Arguments point_coordinates {number}.
Arguments point_embeddingMetadata {number}.
Arguments point_eventMetadata {number}.
Arguments position {number}.
Arguments metaData {number}.

(** The error the spec names [MalformedCoordinate]: the [Error] thrown by
    [coordinatesToThreeDimensionalPoint], with its message. *)
Definition MalformedCoordinate (typename : string) : exn :=
  Error ("Expected Point3D but got " +:+ typename +:+ " for coordinates").

Section PointNormalizer.
Context {number : Type}.

Definition coordinatesToThreeDimensionalPoint
    (coordinates : Coordinates number) : result (list number) :=
  match coordinates with
  | Point3D x y z => mret [x; y; z]
  | Point2D _ _ => throw (MalformedCoordinate (__typename coordinates))
  end.

(** The callback of [allData.map]. *)
Definition toPoint (d : UMAPPointsEntry number) : result (Point number) :=
  position ← coordinatesToThreeDimensionalPoint (entry_coordinates d);
  mret {| point_id := entry_id d;
         point_eventId := entry_eventId d;
         point_coordinates := entry_coordinates d;
         point_embeddingMetadata := entry_embeddingMetadata d;
         point_eventMetadata := entry_eventMetadata d;
         position := position;
         metaData := {| metaData_id := entry_eventId d |} |}.

Definition allSourceData
    (sourceData referenceSourceData corpusSourceData : list (UMAPPointsEntry number))
    : result (list (Point number)) :=
  let allData := sourceData ++ referenceSourceData ++ corpusSourceData in
  mapE toPoint allData.

End PointNormalizer.

(** ** Metric definitions *)

Record Dimension : Type := { dimension_name : string }.

(** The [MetricDefinition] object as it exists at run time: the tag [type],
    the enum value [metric] (the source binds them to [metricType] and
    [metricEnum]) and the [dimension] that only a data quality metric
    carries. *)
Record MetricDefinition : Type := {
  metricType : string;
  metricEnum : string;
  dimension : option Dimension
}.

(** ** The point cloud store *)

Module Store.

(** Modelled from the spec: [ClusterColorMode] of [@phoenix/store], the
    two modes named in section 3. *)
Inductive ClusterColorMode : Type := default | highlight.

(** Modelled from the spec: [UMAPParameters] of section 3. *)
Record UMAPParameters (number : Type) : Type := {
  minDist : number;
  nNeighbors : number;
  nSamples : number
}.
Arguments minDist {number}.
Arguments nNeighbors {number}.
Arguments nSamples {number}.

(** Modelled from the spec: [ClusteringParameters] of section 3. *)
Record ClusteringParameters (number : Type) : Type := {
  minClusterSize : number;
  clusterMinSamples : number;
  clusterSelectionEpsilon : number
}.
Arguments minClusterSize {number}.
Arguments clusterMinSamples {number}.
Arguments clusterSelectionEpsilon {number}.

(** Modelled from the spec: the [VisualizationState] record of section 3;
    the store itself ([@phoenix/store]) is not part of the sources. *)
Record State (number : Type) : Type := {
  points : list (Point number);
  clusters : list (Cluster number);
  retrievals : list (ContextRetrieval number);
  selectedClusterId : option string;
  selectedEventIds : gset string;
  highlightedClusterId : option string;
  errorMessage : option string;
  loading : bool;
  colorMode : ClusterColorMode;
  metric : MetricDefinition;
  umapParameters : UMAPParameters number;
  clusteringParameters : ClusteringParameters number
}.
Arguments points {number}.
Arguments clusters {number}.
Arguments retrievals {number}.
Arguments selectedClusterId {number}.
Arguments selectedEventIds {number}.
Arguments highlightedClusterId {number}.
Arguments errorMessage {number}.
Arguments loading {number}.
Arguments colorMode {number}.
Arguments metric {number}.
Arguments umapParameters {number}.
Arguments clusteringParameters {number}.

Section Mutators.
Context {number : Type}.
Implicit Types st : State number.

(** Modelled from the spec: [setSelectedClusterId] of section 4.4, a
    mutator of one field. *)
Definition setSelectedClusterId (id : option string) st : State number :=
  {| points := points st; clusters := clusters st;
     retrievals := retrievals st;
     selectedClusterId := id;
     selectedEventIds := selectedEventIds st;
     highlightedClusterId := highlightedClusterId st;
     errorMessage := errorMessage st; loading := loading st;
     colorMode := colorMode st; metric := metric st;
     umapParameters := umapParameters st;
     clusteringParameters := clusteringParameters st |}.

(** Modelled from the spec: [setSelectedEventIds] of section 4.4. *)
Definition setSelectedEventIds (ids : gset string) st : State number :=
  {| points := points st; clusters := clusters st;
     retrievals := retrievals st;
     selectedClusterId := selectedClusterId st;
     selectedEventIds := ids;
     highlightedClusterId := highlightedClusterId st;
     errorMessage := errorMessage st; loading := loading st;
     colorMode := colorMode st; metric := metric st;
     umapParameters := umapParameters st;
     clusteringParameters := clusteringParameters st |}.

(** Modelled from the spec: [setHighlightedClusterId] of section 4.4. *)
Definition setHighlightedClusterId (id : option string) st : State number :=
  {| points := points st; clusters := clusters st;
     retrievals := retrievals st;
     selectedClusterId := selectedClusterId st;
     selectedEventIds := selectedEventIds st;
     highlightedClusterId := id;
     errorMessage := errorMessage st; loading := loading st;
     colorMode := colorMode st; metric := metric st;
     umapParameters := umapParameters st;
     clusteringParameters := clusteringParameters st |}.

(** Modelled from the spec: [setClusterColorMode] of section 4.4. *)
Definition setClusterColorMode (mode : ClusterColorMode) st : State number :=
  {| points := points st; clusters := clusters st;
     retrievals := retrievals st;
     selectedClusterId := selectedClusterId st;
     selectedEventIds := selectedEventIds st;
     highlightedClusterId := highlightedClusterId st;
     errorMessage := errorMessage st; loading := loading st;
     colorMode := mode; metric := metric st;
     umapParameters := umapParameters st;
     clusteringParameters := clusteringParameters st |}.

(** Modelled from the spec: [setErrorMessage] of section 4.4. *)
Definition setErrorMessage (message : option string) st : State number :=
  {| points := points st; clusters := clusters st;
     retrievals := retrievals st;
     selectedClusterId := selectedClusterId st;
     selectedEventIds := selectedEventIds st;
     highlightedClusterId := highlightedClusterId st;
     errorMessage := message; loading := loading st;
     colorMode := colorMode st; metric := metric st;
     umapParameters := umapParameters st;
     clusteringParameters := clusteringParameters st |}.

(** Modelled from the spec: [setLoading] of section 4.4. *)
Definition setLoading (b : bool) st : State number :=
  {| points := points st; clusters := clusters st;
     retrievals := retrievals st;
     selectedClusterId := selectedClusterId st;
     selectedEventIds := selectedEventIds st;
     highlightedClusterId := highlightedClusterId st;
     errorMessage := errorMessage st; loading := b;
     colorMode := colorMode st; metric := metric st;
     umapParameters := umapParameters st;
     clusteringParameters := clusteringParameters st |}.

(** Modelled from the spec: [setInitialData(points, clusters,
    retrievals)] of section 4.4, "atomic replace, also clears [loading]
    and [errorMessage]". *)
Definition setInitialData
    (newPoints : list (Point number)) (newClusters : list (Cluster number))
    (newRetrievals : list (ContextRetrieval number)) st : State number :=
  {| points := newPoints; clusters := newClusters;
     retrievals := newRetrievals;
     selectedClusterId := selectedClusterId st;
     selectedEventIds := selectedEventIds st;
     highlightedClusterId := highlightedClusterId st;
     errorMessage := None; loading := false;
     colorMode := colorMode st; metric := metric st;
     umapParameters := umapParameters st;
     clusteringParameters := clusteringParameters st |}.

(** Modelled from the spec: [reset()] of section 4.4 and step 2 of
    section 4.3: the data and the selection, highlight and error fields go
    back to their empty values; the settings the next request is built
    from (metric, hyperparameters) and the color mode are configuration
    and stay. *)
Definition reset st : State number :=
  {| points := []; clusters := []; retrievals := [];
     selectedClusterId := None;
     selectedEventIds := ∅;
     highlightedClusterId := None;
     errorMessage := None; loading := false;
     colorMode := colorMode st; metric := metric st;
     umapParameters := umapParameters st;
     clusteringParameters := clusteringParameters st |}.

(** Modelled from the spec: [getMetric] reads the active
    [MetricDefinition]. *)
Definition getMetric st : MetricDefinition := metric st.

(** Modelled from the spec: [getHDSCANParameters] reads the
    [ClusteringParameters]. *)
Definition getHDSCANParameters st : ClusteringParameters number :=
  clusteringParameters st.

End Mutators.

End Store.

(** ** EmbeddingMain: the queried time range *)

Record TimeRange : Type := {
  start : string;
  end_ : string
}.

(** [primaryInferences] of [useInferences]; the times are date strings. *)
Record Inferences : Type := {
  startTime : string;
  endTime : string
}.

(** ** Dates *)

(** A [Date] is its time value, the milliseconds since the epoch; only
    valid dates are modelled. *)
Definition msPerDay : Z := 86400000.

Section Dates.
(** The time zone of the browser, as ECMAScript's two abstract operations:
    [LocalTime(t)], the local wall-clock time of the instant [t], and
    [UTC(t)], the instant of a local wall-clock time. *)
Variable LocalTime : Z -> Z.
Variable UTC : Z -> Z.

(** [addDays] of date-fns: [date.setDate(date.getDate() + amount)], and the
    date itself when [amount] is 0. [setDate] works on the local time: the
    day of the month moves by [amount], the time within the day stays, and
    the result is taken back to an instant with [UTC]. *)
Definition addDays (date : Z) (amount : Z) : Z :=
  if decide (amount = 0%Z) then date
  else UTC (LocalTime date + amount * msPerDay)%Z.

(** [subDays] of date-fns: [addDays(date, -amount)]. *)
Definition subDays (date : Z) (amount : Z) : Z := addDays date (- amount)%Z.

End Dates.

(** [n] written with [width] decimal digits, zero padded. *)
Fixpoint digits (width : nat) (n : Z) : string :=
  match width with
  | O => ""
  | S width' =>
      digits width' (n / 10)
      +:+ String (Ascii.ascii_of_nat (48 + Z.to_nat (n mod 10))) ""
  end.

(** The year, month and day of the month of a day number (days since the
    epoch), in the proleptic Gregorian calendar. *)
Definition civilFromDays (day : Z) : Z * Z * Z :=
  let z := (day + 719468)%Z in
  let era := (z / 146097)%Z in
  let doe := (z - era * 146097)%Z in
  let yoe := ((doe - doe / 1460 + doe / 36524 - doe / 146096) / 365)%Z in
  let doy := (doe - (365 * yoe + yoe / 4 - yoe / 100))%Z in
  let mp := ((5 * doy + 2) / 153)%Z in
  let d := (doy - (153 * mp + 2) / 5 + 1)%Z in
  let m := if decide (mp < 10)%Z then (mp + 3)%Z else (mp - 9)%Z in
  let y := (yoe + era * 400 + (if decide (m <= 2)%Z then 1 else 0))%Z in
  (y, m, d).

(** [Date.prototype.toISOString]: [YYYY-MM-DDTHH:mm:ss.sssZ] in UTC, with a
    signed year of six digits outside the years 0 to 9999. *)
Definition toISOString (date : Z) : string :=
  let '(y, m, d) := civilFromDays (date / msPerDay) in
  let t := (date mod msPerDay)%Z in
  let year :=
    if decide (0 <= y <= 9999)%Z then digits 4 y
    else (if decide (y < 0)%Z then "-" else "+") +:+ digits 6 (Z.abs y) in
  year +:+ "-" +:+ digits 2 m +:+ "-" +:+ digits 2 d +:+ "T"
  +:+ digits 2 (t / 3600000) +:+ ":" +:+ digits 2 (t / 60000 mod 60) +:+ ":"
  +:+ digits 2 (t / 1000 mod 60) +:+ "." +:+ digits 3 (t mod 1000) +:+ "Z".

Section QueriedTimeRange.
(** What the page's dates depend on besides: the parser [new Date(string)]
    and the time zone. *)
Variable newDate : string -> Z.
Variable LocalTime : Z -> Z.
Variable UTC : Z -> Z.

(** [selectedTimestamp ?? new Date(primaryInferences.endTime)] *)
Definition endTimeOf (selectedTimestamp : option Z)
    (primaryInferences : Inferences) : Z :=
  match selectedTimestamp with
  | Some t => t
  | None => newDate (endTime primaryInferences)
  end.

Definition timeRangeOf (endTime : Z) : TimeRange :=
  {| start := toISOString (subDays LocalTime UTC endTime 2);
     end_ := toISOString endTime |}.

End QueriedTimeRange.

(** ** EmbeddingMain: the request and its lifecycle *)

(** The variables of [EmbeddingPageUMAPQuery]. [performanceMetric] is
    declared [PerformanceMetric!]; the field is an option here only so that
    "absent" can be said of it. *)
Record Variables (number : Type) : Type := {
  var_id : string;
  var_timeRange : TimeRange;
  minDist : number;
  nNeighbors : number;
  nSamples : number;
  minClusterSize : number;
  clusterMinSamples : number;
  clusterSelectionEpsilon : number;
  fetchDataQualityMetric : bool;
  fetchPerformanceMetric : bool;
  dataQualityMetricColumnName : option string;
  performanceMetric : option string
}.
Arguments var_id {number}.
Arguments var_timeRange {number}.
Arguments minDist {number}.
Arguments nNeighbors {number}.
Arguments nSamples {number}.
Arguments minClusterSize {number}.
Arguments clusterMinSamples {number}.
Arguments clusterSelectionEpsilon {number}.
Arguments fetchDataQualityMetric {number}.
Arguments fetchPerformanceMetric {number}.
Arguments dataQualityMetricColumnName {number}.
Arguments performanceMetric {number}.

(** The page's view of [useQueryLoader], next to the store: the current
    [queryReference] ([None] after a call of [disposeQuery]), the supply of
    query references, the calls of [loadQuery] made so far, each with the
    reference it returned ([issued]), and the references that were current
    when the page called [disposeQuery] ([disposed]). What react-relay does
    beneath these calls (when it releases a reference, whether two calls with
    equal variables share one fetch) is not part of the page and is not
    modelled. *)
Record Session (number : Type) : Type := {
  store : Store.State number;
  queryReference : option nat;
  nextReference : nat;
  issued : list (nat * Variables number);
  disposed : list nat
}.
Arguments store {number}.
Arguments queryReference {number}.
Arguments nextReference {number}.
Arguments issued {number}.
Arguments disposed {number}.

Section EmbeddingMain.
Context {number : Type}.
Implicit Types (s : Session number) (st : Store.State number).

(** The first argument of [loadQuery]. Reading [metric.dimension.name]
    throws when a data quality metric has no dimension. *)
Definition variablesOf (embeddingDimensionId : string) (timeRange : TimeRange)
    (umapParameters : Store.UMAPParameters number)
    (hdbscanParameters : Store.ClusteringParameters number)
    (metric : MetricDefinition) : result (Variables number) :=
  columnName ←
    (if decide (metricType metric = "dataQuality")
     then d ← read (dimension metric); mret (Some (dimension_name d))
     else mret None);
  mret {| var_id := embeddingDimensionId;
          var_timeRange := timeRange;
          minDist := Store.minDist umapParameters;
          nNeighbors := Store.nNeighbors umapParameters;
          nSamples := Store.nSamples umapParameters;
          minClusterSize := Store.minClusterSize hdbscanParameters;
          clusterMinSamples := Store.clusterMinSamples hdbscanParameters;
          clusterSelectionEpsilon :=
            Store.clusterSelectionEpsilon hdbscanParameters;
          fetchDataQualityMetric :=
            bool_decide (metricType metric = "dataQuality");
          fetchPerformanceMetric :=
            bool_decide (metricType metric = "performance");
          dataQualityMetricColumnName := columnName;
          performanceMetric :=
            Some (if decide (metricType metric = "performance")
                  then metricEnum metric
                  else "accuracyScore") |}.

Definition withStore (f : Store.State number -> Store.State number) s
    : Session number :=
  {| store := f (store s);
     queryReference := queryReference s;
     nextReference := nextReference s;
     issued := issued s;
     disposed := disposed s |}.

(** The call [loadQuery(variables, {fetchPolicy: "network-only"})]: the
    query reference it returns, a new one, becomes the current one, and the
    call is recorded. *)
Definition loadQuery (variables : Variables number) s : Session number :=
  {| store := store s;
     queryReference := Some (nextReference s);
     nextReference := S (nextReference s);
     issued := issued s ++ [(nextReference s, variables)];
     disposed := disposed s |}.

(** The call [disposeQuery()]: [queryReference] becomes [null], and the
    reference that was current, if any, is recorded as handed back. *)
Definition disposeQuery s : Session number :=
  {| store := store s;
     queryReference := None;
     nextReference := nextReference s;
     issued := issued s;
     disposed := match queryReference s with
                 | Some r => disposed s ++ [r]
                 | None => disposed s
                 end |}.

(** The state in which [loadQuery] is called: after [resetPointCloud()]
    and [setLoading(true)]. *)
Definition beforeLoadQuery s : Session number :=
  withStore (Store.setLoading true) (withStore Store.reset s).

(** The body of the effect of [EmbeddingMain]. An exception thrown while
    the variables are built leaves the effect before [loadQuery]. *)
Definition effect (embeddingDimensionId : string) (timeRange : TimeRange) s
    : Session number :=
  let s' := beforeLoadQuery s in
  let metric := Store.getMetric (store s') in
  match variablesOf embeddingDimensionId timeRange
          (Store.umapParameters (store s'))
          (Store.getHDSCANParameters (store s')) metric with
  | inr variables => loadQuery variables s'
  | inl _ => s'
  end.

(** The function the effect returns. *)
Definition cleanup s : Session number := disposeQuery s.

(** A change of a dependency of the effect: React runs the cleanup of the
    previous run, then the body again. *)
Definition requery (embeddingDimensionId : string) (timeRange : TimeRange) s
    : Session number :=
  effect embeddingDimensionId timeRange (cleanup s).

(** The effect of [PointCloudDisplay] for a response [payload]: the points
    are normalized and written with the clusters and the retrievals in one
    [setInitialData]. *)
Definition PointCloudDisplay (payload : UMAPPoints number) st
    : result (Store.State number) :=
  points ← allSourceData (data payload) (referenceData payload)
             (corpusData payload);
  mret (Store.setInitialData points (clusters payload)
          (contextRetrievals payload) st).

(** An exception thrown while a component renders. Nothing in the page
    catches it: React unmounts the page, and the cleanup of the effect of
    [EmbeddingMain] runs. *)
Definition renderError s : Session number := cleanup s.

(** The data of reference [r] becomes available. [PointCloudDisplay] is
    rendered with the current [queryReference] only and reads
    [usePreloadedQuery(..., queryReference)]: the data of any other
    reference reaches no component. The normalizer runs in a [useMemo] of
    the render; when it throws, the render fails before the effect that
    calls [setInitialData]. *)
Definition onResponse (r : nat) (payload : UMAPPoints number) s
    : Session number :=
  if decide (queryReference s = Some r) then
    match PointCloudDisplay payload (store s) with
    | inr st' => withStore (fun _ => st') s
    | inl _ => renderError s
    end
  else s.

(** The request of reference [r] fails. [usePreloadedQuery] throws the
    error while [PointCloudDisplay] renders; the page has no handler for it
    and never calls [setErrorMessage] with a message, so the store is left as
    it is. *)
Definition onRequestFailure (r : nat) (message : string) s : Session number :=
  if decide (queryReference s = Some r) then renderError s else s.

End EmbeddingMain.

(** ** ClustersPanelContents: the handlers *)

Section ClustersPanelContents.
Context {number : Type}.
Implicit Types st : Store.State number.

Definition onTabChange (key : string) st : Store.State number :=
  if decide (key = "configuration") then
    Store.setClusterColorMode Store.highlight st
  else
    Store.setClusterColorMode Store.default st.

(** [onClick] of the [ClusterItem] of [cluster]; [new Set(array)] is
    [list_to_set]. *)
Definition onClick (cluster : Cluster number) st : Store.State number :=
  if decide (Store.selectedClusterId st ≠ Some (cluster_id cluster)) then
    Store.setSelectedEventIds (list_to_set (cluster_eventIds cluster))
      (Store.setSelectedClusterId (Some (cluster_id cluster)) st)
  else
    Store.setSelectedEventIds ∅ (Store.setSelectedClusterId None st).

Definition onMouseEnter (cluster : Cluster number) st : Store.State number :=
  Store.setHighlightedClusterId (Some (cluster_id cluster)) st.

Definition onMouseLeave st : Store.State number :=
  Store.setHighlightedClusterId None st.

End ClustersPanelContents.

(** ** The metric resolver *)

(** Modelled from the spec: [assertUnreachable] of [@phoenix/typeUtils]
    aborts (section 4.2, "fail fast"). *)
Definition assertUnreachable {A : Type} (x : string) : result A :=
  throw Unreachable.

Section MetricResolver.
(** The metric to short name table of [@phoenix/utils/metricFormatUtils]. *)
Variable getMetricShortNameByMetricKey : string -> string.

Definition getClusterMetricName (metric : MetricDefinition) : result string :=
  let metricType := metricType metric in
  let metricEnum := metricEnum metric in
  if decide (metricType = "dataQuality") then
    d ← read (dimension metric); mret (dimension_name d +:+ " avg")
  else if decide (metricType = "drift") then
    if decide (metricEnum = "euclideanDistance") then mret "Cluster Drift"
    else assertUnreachable metricEnum
  else if decide (metricType = "performance") then
    mret (getMetricShortNameByMetricKey metricEnum)
  else if decide (metricType = "retrieval") then
    if decide (metricEnum = "queryDistance") then mret "% Query"
    else assertUnreachable metricEnum
  else assertUnreachable metricType.

End MetricResolver.

(** ** Executions *)

(** What can happen to a session: the effect of [EmbeddingMain] runs again,
    the page is torn down, the data of a reference arrives or its request
    fails, the analyst clicks or hovers a cluster or changes the tab. *)
Inductive Event (number : Type) : Type :=
  | Requery (embeddingDimensionId : string) (timeRange : TimeRange)
  | Teardown
  | Response (r : nat) (payload : UMAPPoints number)
  | RequestFailure (r : nat) (message : string)
  | Click (cluster : Cluster number)
  | MouseEnter (cluster : Cluster number)
  | MouseLeave
  | TabChange (key : string).
Arguments Requery {number}.
Arguments Teardown {number}.
Arguments Response {number}.
Arguments RequestFailure {number}.
Arguments Click {number}.
Arguments MouseEnter {number}.
Arguments MouseLeave {number}.
Arguments TabChange {number}.

Section Executions.
Context {number : Type}.

Definition step (s : Session number) (e : Event number) : Session number :=
  match e with
  | Requery embeddingDimensionId timeRange =>
      requery embeddingDimensionId timeRange s
  | Teardown => cleanup s
  | Response r payload => onResponse r payload s
  | RequestFailure r message => onRequestFailure r message s
  | Click cluster => withStore (onClick cluster) s
  | MouseEnter cluster => withStore (onMouseEnter cluster) s
  | MouseLeave => withStore onMouseLeave s
  | TabChange key => withStore (onTabChange key) s
  end.

Definition run (events : list (Event number)) (s : Session number)
    : Session number :=
  fold_left step events s.

(** A session right after [PointCloudProvider] created the store [st]:
    nothing was requested yet. *)
Definition newSession (st : Store.State number) : Session number :=
  {| store := st; queryReference := None; nextReference := 0;
     issued := []; disposed := [] |}.

End Executions.

(** ** Notions of the specification *)

(** The session dimensionality of the specification (sections 3 and 4.1).
    The page has no such setting; it appears in the statements that compare
    the specification with the code. *)
Inductive Dimensionality : Type := TwoDimensional | ThreeDimensional.

(** The dimensionality a coordinate record is tagged with. *)
Definition shapeOf {number : Type} (c : Coordinates number) : Dimensionality :=
  match c with
  | Point2D _ _ => TwoDimensional
  | Point3D _ _ _ => ThreeDimensional
  end.

(** The [sourceSet] of the specification's [Point] (section 3). *)
Inductive SourceSet : Type := primary | reference | corpus.

(** The array the [i]-th element of [primary ++ reference ++ corpus] comes
    from, given the lengths of the first two. *)
Definition originOf (nPrimary nReference i : nat) : SourceSet :=
  if decide (i < nPrimary) then primary
  else if decide (i < nPrimary + nReference) then reference
  else corpus.

Definition isPoint3D {number : Type} (d : UMAPPointsEntry number) : Prop :=
  __typename (entry_coordinates d) = "Point3D".

(** The [MetricDefinition]s of section 3 of the specification, with the
    metric enums the resolver handles. *)
Definition definedMetric (metric : MetricDefinition) : Prop :=
  (metricType metric = "dataQuality" /\ is_Some (dimension metric)) \/
  (metricType metric = "drift" /\ metricEnum metric = "euclideanDistance") \/
  metricType metric = "performance" \/
  (metricType metric = "retrieval" /\ metricEnum metric = "queryDistance").

(** The events at which the page is unmounted: a teardown, and the
    exceptions nothing catches, which are a failure of the current request,
    data of the current request that the normalizer refuses, and variables
    that cannot be built. *)
Definition unmounts {number : Type} (e : Event number) (s : Session number)
    : Prop :=
  match e with
  | Teardown => True
  | RequestFailure r _ => queryReference s = Some r
  | Response r payload =>
      queryReference s = Some r /\
      throws (allSourceData (data payload) (referenceData payload)
                (corpusData payload))
  | Requery embeddingDimensionId timeRange =>
      throws (variablesOf embeddingDimensionId timeRange
                (Store.umapParameters (store s))
                (Store.clusteringParameters (store s))
                (Store.metric (store s)))
  | _ => False
  end.

(** The page stays mounted all along the events, started in [s]. *)
Fixpoint staysMounted {number : Type} (events : list (Event number))
    (s : Session number) : Prop :=
  match events with
  | [] => True
  | e :: events' => ~ unmounts e s /\ staysMounted events' (step s e)
  end.

(** ** Sample data *)

Module Sample.

Definition entry (id : string) (c : Coordinates Z) : UMAPPointsEntry Z :=
  {| entry_id := id;
     entry_eventId := id;
     entry_coordinates := c;
     entry_embeddingMetadata := {| linkToData := None; rawData := None |};
     entry_eventMetadata :=
       {| predictionId := None; predictionLabel := None;
          actualLabel := None; predictionScore := None;
          actualScore := None |} |}.

Definition p1 : UMAPPointsEntry Z := entry "1" (Point3D 1 2 3)%Z.
Definition p2 : UMAPPointsEntry Z := entry "2" (Point3D 4 5 6)%Z.
Definition flat : UMAPPointsEntry Z := entry "3" (Point2D 1 2)%Z.

Definition umapParameters : Store.UMAPParameters Z :=
  {| Store.minDist := 0%Z; Store.nNeighbors := 30%Z; Store.nSamples := 500%Z |}.

Definition clusteringParameters : Store.ClusteringParameters Z :=
  {| Store.minClusterSize := 10%Z; Store.clusterMinSamples := 1%Z;
     Store.clusterSelectionEpsilon := 0%Z |}.

Definition drift : MetricDefinition :=
  {| metricType := "drift"; metricEnum := "euclideanDistance";
     dimension := None |}.

Definition performance : MetricDefinition :=
  {| metricType := "performance"; metricEnum := "accuracyScore";
     dimension := None |}.

Definition dataQuality : MetricDefinition :=
  {| metricType := "dataQuality"; metricEnum := "average";
     dimension := Some {| dimension_name := "age" |} |}.

Definition timeRange : TimeRange :=
  {| start := "2023-01-01T00:00:00.000Z"; end_ := "2023-01-03T00:00:00.000Z" |}.

(** A store as [PointCloudProvider] creates it for a drift exploration. *)
Definition laterTimeRange : TimeRange :=
  {| start := "2023-01-02T00:00:00.000Z"; end_ := "2023-01-04T00:00:00.000Z" |}.

Definition initialStore : Store.State Z :=
  {| Store.points := []; Store.clusters := []; Store.retrievals := [];
     Store.selectedClusterId := None;
     Store.selectedEventIds := ∅;
     Store.highlightedClusterId := None;
     Store.errorMessage := None; Store.loading := false;
     Store.colorMode := Store.default; Store.metric := drift;
     Store.umapParameters := umapParameters;
     Store.clusteringParameters := clusteringParameters |}.

Definition cluster (id : string) (eventIds : list string) : Cluster Z :=
  {| cluster_id := id; cluster_eventIds := eventIds;
     driftRatio := None; primaryToCorpusRatio := None;
     cluster_dataQualityMetric := None; cluster_performanceMetric := None |}.

(** A store holding the clusters C and D, with D selected. *)
Definition storeWithSelection : Store.State Z :=
  Store.setSelectedEventIds {["d1"]}
    (Store.setSelectedClusterId (Some "D")
       (Store.setInitialData []
          [cluster "C" ["c1"; "c2"; "c1"]; cluster "D" ["d1"]] []
          initialStore)).

Definition payload : UMAPPoints Z :=
  {| data := [p1]; referenceData := [p2]; corpusData := [];
     clusters := [cluster "C" ["1"; "2"]]; contextRetrievals := [] |}.

(** A data quality metric that lost its dimension, and a store holding
    it. *)
Definition dataQualityWithoutDimension : MetricDefinition :=
  {| metricType := "dataQuality"; metricEnum := "average";
     dimension := None |}.

Definition storeWithoutDimension : Store.State Z :=
  {| Store.points := []; Store.clusters := []; Store.retrievals := [];
     Store.selectedClusterId := None;
     Store.selectedEventIds := ∅;
     Store.highlightedClusterId := None;
     Store.errorMessage := None; Store.loading := false;
     Store.colorMode := Store.default;
     Store.metric := dataQualityWithoutDimension;
     Store.umapParameters := umapParameters;
     Store.clusteringParameters := clusteringParameters |}.

Definition malformedPayload : UMAPPoints Z :=
  {| data := [p1]; referenceData := [flat]; corpusData := [p2];
     clusters := []; contextRetrievals := [] |}.

(** [new Date] on the date string of the sample inferences. *)
Definition newDate (iso : string) : Z :=
  if decide (iso = "2023-11-14T22:13:20.000Z") then 1700000000000%Z else 0%Z.

(** The time zone UTC. *)
Definition utcLocalTime (t : Z) : Z := t.
Definition utcUTC (t : Z) : Z := t.

(** The time zone Europe/Berlin between March 2023 and March 2024: two
    hours ahead of UTC until 2023-10-29T01:00:00Z, one hour afterwards; a
    repeated wall-clock time is read with the earlier offset. *)
Definition berlinLocalTime (t : Z) : Z :=
  if decide (t < 1698541200000)%Z then (t + 7200000)%Z else (t + 3600000)%Z.
Definition berlinUTC (t : Z) : Z :=
  if decide (t < 1698541200000 + 7200000)%Z then (t - 7200000)%Z
  else (t - 3600000)%Z.

Definition primaryInferences : Inferences :=
  {| startTime := "2023-11-01T00:00:00.000Z";
     endTime := "2023-11-14T22:13:20.000Z" |}.

End Sample.

(** ** EmbeddingPage: the initial props of the store *)

Section EmbeddingPage.
(** [Partial<PointCloudProps>] is an object with some of the props set: a
    finite map from prop names to values. The three presets come from
    [@phoenix/store], [ConfigUMAP] is [window.Config.UMAP]. *)
Context {Value : Type}.
Variable getDefaultRetrievalTroubleshootingPointCloudProps : gmap string Value.
Variable getDefaultDriftPointCloudProps : gmap string Value.
Variable getDefaultSingleInferenceSetPointCloudProps : gmap string Value.
Variable ConfigUMAP : Value.

(** The [useMemo] of [EmbeddingPage]: a preset chosen by the inferences that
    exist, then [{...defaultPointCloudProps, umapParameters: {...}}]. *)
Definition defaultPointCloudProps
    (corpusInferences referenceInferences : option Inferences)
    : gmap string Value :=
  let defaultPointCloudProps :=
    match corpusInferences, referenceInferences with
    | Some _, _ => getDefaultRetrievalTroubleshootingPointCloudProps
    | None, Some _ => getDefaultDriftPointCloudProps
    | None, None => getDefaultSingleInferenceSetPointCloudProps
    end in
  <["umapParameters" := ConfigUMAP]> defaultPointCloudProps.

End EmbeddingPage.

(** ** What the panels render *)

Section Panels.
Context {number : Type}.
Implicit Types st : Store.State number.

(** The props [isSelected] and [numPoints] that [ClustersPanelContents]
    gives to the [ClusterItem] of [cluster]. *)
Definition isSelected st (cluster : Cluster number) : bool :=
  bool_decide (Store.selectedClusterId st = Some (cluster_id cluster)).

Definition numPoints (cluster : Cluster number) : nat :=
  length (cluster_eventIds cluster).

(** [SelectionPanel]: [null] when no event is selected, otherwise the
    element with [data-testid="selection-panel"]. *)
Definition SelectionPanel st : option string :=
  if decide (size (Store.selectedEventIds st) = 0) then None
  else Some "selection-panel".

End Panels.

(** The argument of [notifyError]. *)
Record Notification : Type := {
  title : string;
  message : string;
  actionText : string
}.

Section Notifications.
Context {number : Type}.
Implicit Types st : Store.State number.

(** The effect of [PointCloudNotifications]: the call of [notifyError] it
    makes, if any. *)
Definition PointCloudNotifications st : option Notification :=
  match Store.errorMessage st with
  | Some errorMessage =>
      Some {| title := "An error occurred";
              message := errorMessage;
              actionText := "Dismiss" |}
  | None => None
  end.

(** [onClick] of the action of the notification. *)
Definition onDismiss st : Store.State number := Store.setErrorMessage None st.

End Notifications.

(** ** Invariants of executions *)

Definition isRequery {number : Type} (e : Event number) : bool :=
  match e with
  | Requery _ _ => true
  | _ => false
  end.

(** What every session reached from [newSession] satisfies: the issued
    requests carry the references [0], [1], ... in order; every reference
    handed out is either the current one or disposed, never both; no
    reference is disposed twice; the current reference is the last one handed
    out. *)
Definition consistent {number : Type} (s : Session number) : Prop :=
  fst <$> issued s = seq 0 (nextReference s) /\
  NoDup (disposed s) /\
  (forall r : nat,
     r < nextReference s <-> queryReference s = Some r \/ r ∈ disposed s) /\
  (forall r : nat,
     queryReference s = Some r -> (r ∉ disposed s) /\ S r = nextReference s).

(** * Properties *)

(** ** Computations that may throw *)

Lemma bind_inr {A B : Type} (m : result A) (k : A -> result B) (b : B) :
  m ≫= k = inr b <-> exists a, m = inr a /\ k a = inr b.
Proof.
  destruct m as [e|a]; simpl; split.
  - discriminate.
  - intros (a & Ha & _). discriminate Ha.
  - intros Hk. by exists a.
  - intros (a' & [= <-] & Hk). exact Hk.
Qed.

(** [mapE] returns exactly the element-wise results, in order. *)
Lemma mapE_inr {A B : Type} (f : A -> result B) (l : list A) (bs : list B) :
  mapE f l = inr bs <-> Forall2 (fun a b => f a = inr b) l bs.
Proof.
  revert bs. induction l as [|a l IH]; intros bs; simpl.
  - split.
    + intros [= <-]. constructor.
    + intros H. inversion H. reflexivity.
  - split.
    + intros H. apply bind_inr in H as (b & Hb & H).
      apply bind_inr in H as (bs' & Hbs & [= <-]).
      constructor; [exact Hb | by apply IH].
    + intros H. inversion H as [|? b ? bs' Hb Hbs]; subst.
      apply bind_inr. exists b. split; [exact Hb|].
      apply bind_inr. exists bs'. split; [by apply IH | reflexivity].
Qed.

(** [mapE] throws exactly when the callback throws on some element. *)
Lemma mapE_throws {A B : Type} (f : A -> result B) (l : list A) :
  throws (mapE f l) <-> Exists (fun a => throws (f a)) l.
Proof.
  induction l as [|a l IH]; simpl.
  - split; [intros [e He]; discriminate He | intros H; inversion H].
  - destruct (f a) as [e|b] eqn:Hfa; simpl.
    + split; [intros _ | intros _; by exists e].
      apply Exists_cons_hd. rewrite Hfa. by exists e.
    + destruct (mapE f l) as [e|bs] eqn:Hl; simpl.
      * split; [intros _ | intros _; by exists e].
        apply Exists_cons_tl, IH. by exists e.
      * split; [intros [e He]; discriminate He |].
        intros H. apply Exists_cons in H as [[e He]|H].
        -- rewrite Hfa in He. discriminate He.
        -- apply IH in H as [e He]. discriminate He.
Qed.

(** ** The point normalizer *)

Lemma toPoint_inr {number : Type} (d : UMAPPointsEntry number) (p : Point number) :
  toPoint d = inr p <->
  exists x y z,
    entry_coordinates d = Point3D x y z /\
    p = {| point_id := entry_id d;
           point_eventId := entry_eventId d;
           point_coordinates := entry_coordinates d;
           point_embeddingMetadata := entry_embeddingMetadata d;
           point_eventMetadata := entry_eventMetadata d;
           position := [x; y; z];
           metaData := {| metaData_id := entry_eventId d |} |}.
Proof.
  unfold toPoint. destruct (entry_coordinates d) as [x y|x y z]; simpl.
  - split; [discriminate | intros (? & ? & ? & [=] & _)].
  - split.
    + intros [= <-]. by exists x, y, z.
    + intros (? & ? & ? & [= <- <- <-] & ->). reflexivity.
Qed.

Lemma toPoint_throws {number : Type} (d : UMAPPointsEntry number) :
  throws (toPoint d) <-> ~ isPoint3D d.
Proof.
  unfold toPoint, isPoint3D.
  destruct (entry_coordinates d) as [x y|x y z]; simpl.
  - split; [intros _; discriminate | intros _; eexists; reflexivity].
  - split; [intros [e He]; discriminate He | intros H; by destruct H].
Qed.

(** The scenario of the specification: the record [{x:1, y:2, z:3}] is
    accepted with position [[1, 2, 3]]; a response with a [Point2D] record is
    refused as a whole, with the message of the source. *)
Example normalize_scenario :
  coordinatesToThreeDimensionalPoint (Point3D 1 2 3)%Z = inr [1; 2; 3]%Z /\
  (out ← allSourceData [Sample.p1] [Sample.p2] []; mret (position <$> out))
  = inr [[1; 2; 3]; [4; 5; 6]]%Z /\
  allSourceData [Sample.p1] [Sample.flat] [Sample.p2]
  = inl (Error "Expected Point3D but got Point2D for coordinates").
Proof. repeat split. Qed.

(** C1, as the specification states it, fails: the normalizer knows no
    session dimensionality. A [Point3D] record is accepted under a
    two-dimensional session, and a [Point2D] record is refused under a
    two-dimensional session, so "throws exactly when the tag disagrees with
    the session" does not hold. *)
Lemma normalizer_ignores_session_dimensionality :
  ~ (forall (session : Dimensionality) (c : Coordinates Z),
       throws (coordinatesToThreeDimensionalPoint c) <-> shapeOf c <> session).
Proof.
  intros H.
  destruct (H TwoDimensional (Point3D 1 2 3)%Z) as [_ Hthrows].
  destruct Hthrows as [e He]; [discriminate | discriminate He].
Qed.

(** C1, amended: the normalizer throws [MalformedCoordinate] exactly when a
    coordinate record is not tagged [Point3D], whatever the session
    dimensionality; a [Point3D] record [{x, y, z}] is always accepted with
    position [[x, y, z]], a [Point2D] record is always refused, and the
    normalization of a response throws exactly when one of its points is not
    tagged [Point3D]. *)
Theorem coordinatesToThreeDimensionalPoint_accepts_Point3D_only
    {number : Type} :
  (forall x y z : number,
     coordinatesToThreeDimensionalPoint (Point3D x y z) = inr [x; y; z]) /\
  (forall x y : number,
     coordinatesToThreeDimensionalPoint (Point2D x y)
     = inl (MalformedCoordinate "Point2D")) /\
  (forall (session : Dimensionality) (c : Coordinates number),
     (coordinatesToThreeDimensionalPoint c
      = inl (MalformedCoordinate (__typename c))
      <-> shapeOf c <> ThreeDimensional) /\
     (returns (coordinatesToThreeDimensionalPoint c)
      <-> shapeOf c = ThreeDimensional)) /\
  (forall sourceData referenceSourceData corpusSourceData
          : list (UMAPPointsEntry number),
     throws (allSourceData sourceData referenceSourceData corpusSourceData)
     <-> Exists (fun d => ~ isPoint3D d)
           (sourceData ++ referenceSourceData ++ corpusSourceData)).
Proof.
  split; [reflexivity|]. split; [reflexivity|]. split.
  - intros _ [x y|x y z]; simpl; (split; split).
    + discriminate.
    + reflexivity.
    + intros [a Ha]. discriminate Ha.
    + discriminate.
    + discriminate.
    + intros H. by destruct H.
    + reflexivity.
    + intros _. by eexists.
  - intros a b c. unfold allSourceData. rewrite mapE_throws.
    split; intros H; eapply Exists_impl; try exact H;
      intros d Hd; by apply toPoint_throws.
Qed.

(** C2, as the specification states it, fails: an output point has no
    [sourceSet] field, and nothing else in it tells the origin. No reading
    [sourceSet] of the output points gives the originating array for every
    response: the same record sent as a primary and as a reference point is
    normalized to the same output point. *)
Lemma output_points_carry_no_sourceSet :
  ~ (exists sourceSet : Point Z -> SourceSet,
       forall (sourceData referenceSourceData corpusSourceData
                 : list (UMAPPointsEntry Z)) (out : list (Point Z)),
         allSourceData sourceData referenceSourceData corpusSourceData
         = inr out ->
         forall (i : nat) (p : Point Z),
           out !! i = Some p ->
           sourceSet p
           = originOf (length sourceData) (length referenceSourceData) i).
Proof.
  intros (sourceSet & H).
  specialize (H [Sample.p1] [Sample.p1] [] _ eq_refl).
  pose proof (H 0 _ eq_refl) as H0.
  pose proof (H 1 _ eq_refl) as H1.
  simpl in H0, H1. rewrite H0 in H1. discriminate H1.
Qed.

(** C2, amended: for every response whose coordinate records are all tagged
    [Point3D], the normalizer returns a sequence whose length is the sum of
    the lengths of the three arrays, and whose [i]-th point is the
    normalization of the [i]-th record of primary, then reference, then
    corpus: it keeps the record's fields, its position is the record's
    [[x, y, z]] and its [metaData.id] is the record's [eventId]. The origin of
    a point is its place in the sequence ([originOf]); no [sourceSet] field is
    attached. *)
Theorem allSourceData_length_and_order {number : Type}
    (sourceData referenceSourceData corpusSourceData
       : list (UMAPPointsEntry number)) :
  Forall isPoint3D (sourceData ++ referenceSourceData ++ corpusSourceData) ->
  exists out : list (Point number),
    allSourceData sourceData referenceSourceData corpusSourceData = inr out /\
    length out
    = length sourceData + length referenceSourceData + length corpusSourceData /\
    forall (i : nat) (p : Point number),
      out !! i = Some p ->
      exists d : UMAPPointsEntry number,
        match originOf (length sourceData) (length referenceSourceData) i with
        | primary => sourceData !! i = Some d
        | reference => referenceSourceData !! (i - length sourceData) = Some d
        | corpus =>
            corpusSourceData
              !! (i - length sourceData - length referenceSourceData) = Some d
        end /\
        point_id p = entry_id d /\
        point_eventId p = entry_eventId d /\
        point_coordinates p = entry_coordinates d /\
        point_embeddingMetadata p = entry_embeddingMetadata d /\
        point_eventMetadata p = entry_eventMetadata d /\
        metaData_id (metaData p) = entry_eventId d /\
        coordinatesToThreeDimensionalPoint (entry_coordinates d)
        = inr (position p).
Proof.
  intros Hall. unfold allSourceData.
  destruct (mapE toPoint (sourceData ++ referenceSourceData ++ corpusSourceData))
    as [e|out] eqn:Hmap.
  - exfalso.
    assert (Hthrows : throws (mapE toPoint
              (sourceData ++ referenceSourceData ++ corpusSourceData)))
      by (by exists e).
    apply mapE_throws in Hthrows. apply Exists_exists in Hthrows as (d & Hd & Ht).
    apply toPoint_throws in Ht. apply Ht.
    rewrite Forall_forall in Hall. by apply Hall.
  - exists out. split; [reflexivity|].
    apply mapE_inr in Hmap.
    pose proof (Forall2_length _ _ _ Hmap) as Hlen.
    rewrite !length_app in Hlen. split; [lia|].
    intros i p Hp.
    destruct (Forall2_lookup_r _ _ _ _ _ Hmap Hp) as (d & Hd & Hdp).
    exists d. split.
    + unfold originOf. repeat case_decide.
      * by rewrite lookup_app_l in Hd.
      * rewrite lookup_app_r in Hd by lia. by rewrite lookup_app_l in Hd by lia.
      * rewrite lookup_app_r in Hd by lia. rewrite lookup_app_r in Hd by lia.
        exact Hd.
    + apply toPoint_inr in Hdp as (x & y & z & Hc & ->). simpl.
      rewrite Hc. repeat split; reflexivity.
Qed.

Lemma allSourceData_length_and_order_witness :
  Forall isPoint3D ([Sample.p1] ++ [Sample.p2] ++ [Sample.p1]) /\
  exists out : list (Point Z),
    allSourceData [Sample.p1] [Sample.p2] [Sample.p1] = inr out /\
    length out = 3.
Proof.
  assert (H : Forall isPoint3D ([Sample.p1] ++ [Sample.p2] ++ [Sample.p1]))
    by (repeat constructor).
  split; [exact H|].
  destruct (allSourceData_length_and_order
              [Sample.p1] [Sample.p2] [Sample.p1] H) as (out & Hout & Hlen & _).
  exists out. split; [exact Hout | exact Hlen].
Defined.

(** ** The request variables *)

Lemma variablesOf_inr {number : Type} (embeddingDimensionId : string)
    (timeRange : TimeRange) (umapParameters : Store.UMAPParameters number)
    (hdbscanParameters : Store.ClusteringParameters number)
    (metric : MetricDefinition) (v : Variables number) :
  variablesOf embeddingDimensionId timeRange umapParameters hdbscanParameters
    metric = inr v ->
  var_id v = embeddingDimensionId /\ var_timeRange v = timeRange /\
  minDist v = Store.minDist umapParameters /\
  nNeighbors v = Store.nNeighbors umapParameters /\
  nSamples v = Store.nSamples umapParameters /\
  minClusterSize v = Store.minClusterSize hdbscanParameters /\
  clusterMinSamples v = Store.clusterMinSamples hdbscanParameters /\
  clusterSelectionEpsilon v = Store.clusterSelectionEpsilon hdbscanParameters.
Proof.
  unfold variablesOf. intros H.
  apply bind_inr in H as (columnName & _ & [= <-]). simpl.
  repeat split; reflexivity.
Qed.

(** C3, as the specification states it, fails: [performanceMetric] is never
    absent. For a drift metric the request carries the fallback
    ["accuracyScore"]. *)
Lemma performanceMetric_is_never_absent :
  ~ (forall (embeddingDimensionId : string) (timeRange : TimeRange)
            (umapParameters : Store.UMAPParameters Z)
            (hdbscanParameters : Store.ClusteringParameters Z)
            (metric : MetricDefinition) (v : Variables Z),
       variablesOf embeddingDimensionId timeRange umapParameters
         hdbscanParameters metric = inr v ->
       metricType metric <> "performance" ->
       performanceMetric v = None).
Proof.
  intros H.
  specialize (H "dimension" Sample.timeRange Sample.umapParameters
                Sample.clusteringParameters Sample.drift _ eq_refl).
  simpl in H. discriminate H. discriminate.
Qed.

(** C3, amended: for every metric definition (a data quality one carrying
    its dimension) the request parameters are assembled, and in them
    [fetchDataQualityMetric] is true iff the variant is [dataQuality] (then
    [dataQualityMetricColumnName] is the dimension name, otherwise it is
    null); [fetchPerformanceMetric] is true iff the variant is [performance]
    (then [performanceMetric] is the variant's metric, otherwise it is the
    fallback ["accuracyScore"], never absent); every other variant has both
    flags false. *)
Theorem variablesOf_metric_flags {number : Type} (embeddingDimensionId : string)
    (timeRange : TimeRange) (umapParameters : Store.UMAPParameters number)
    (hdbscanParameters : Store.ClusteringParameters number)
    (metric : MetricDefinition) :
  (metricType metric = "dataQuality" -> is_Some (dimension metric)) ->
  exists v : Variables number,
    variablesOf embeddingDimensionId timeRange umapParameters hdbscanParameters
      metric = inr v /\
    (fetchDataQualityMetric v = true <-> metricType metric = "dataQuality") /\
    (metricType metric = "dataQuality" ->
       dataQualityMetricColumnName v = dimension_name <$> dimension metric) /\
    (metricType metric <> "dataQuality" ->
       dataQualityMetricColumnName v = None) /\
    (fetchPerformanceMetric v = true <-> metricType metric = "performance") /\
    (metricType metric = "performance" ->
       performanceMetric v = Some (metricEnum metric)) /\
    (metricType metric <> "performance" ->
       performanceMetric v = Some "accuracyScore") /\
    (metricType metric <> "dataQuality" -> metricType metric <> "performance" ->
       fetchDataQualityMetric v = false /\ fetchPerformanceMetric v = false).
Proof.
  intros Hdim. unfold variablesOf.
  destruct (decide (metricType metric = "dataQuality")) as [Hdq|Hdq].
  - destruct (Hdim Hdq) as [d Hd]. rewrite Hd. simpl.
    eexists. split; [reflexivity|]. simpl.
    rewrite !bool_decide_eq_true.
    repeat split; try done; intros; case_decide; congruence.
  - simpl. eexists. split; [reflexivity|]. simpl.
    rewrite !bool_decide_eq_true.
    repeat split; try done; intros; try case_decide; try congruence;
      by apply bool_decide_eq_false.
Qed.

Lemma variablesOf_metric_flags_witness :
  exists v : Variables Z,
    variablesOf "dimension" Sample.timeRange Sample.umapParameters
      Sample.clusteringParameters Sample.dataQuality = inr v /\
    fetchDataQualityMetric v = true /\
    dataQualityMetricColumnName v = Some "age" /\
    fetchPerformanceMetric v = false /\
    performanceMetric v = Some "accuracyScore".
Proof.
  destruct (variablesOf_metric_flags "dimension" Sample.timeRange
              Sample.umapParameters Sample.clusteringParameters
              Sample.dataQuality)
    as (v & Hv & Hdq & Hname & _ & Hperf & _ & Hfallback & _).
  - intros _. by eexists.
  - exists v. split; [exact Hv|].
    split; [by apply Hdq|]. split; [by apply Hname|].
    split; [|apply Hfallback; discriminate].
    destruct (fetchPerformanceMetric v); [|reflexivity].
    destruct Hperf as [Hperf _]. specialize (Hperf eq_refl). discriminate Hperf.
Defined.

(** ** The metric resolver *)

(** C9: the resolver gives [dataQuality(name)] the label ["{name} avg"],
    [drift(euclideanDistance)] the label ["Cluster Drift"],
    [performance(metric)] the short name of the metric,
    [retrieval(queryDistance)] the label ["% Query"]; on every other
    metric definition it aborts and returns no label. *)
Theorem getClusterMetricName_labels (getMetricShortNameByMetricKey : string -> string) :
  (forall (name metricEnum : string),
     getClusterMetricName getMetricShortNameByMetricKey
       {| metricType := "dataQuality"; metricEnum := metricEnum;
          dimension := Some {| dimension_name := name |} |}
     = inr (name +:+ " avg")) /\
  (forall dimension : option Dimension,
     getClusterMetricName getMetricShortNameByMetricKey
       {| metricType := "drift"; metricEnum := "euclideanDistance";
          dimension := dimension |}
     = inr "Cluster Drift") /\
  (forall (metricEnum : string) (dimension : option Dimension),
     getClusterMetricName getMetricShortNameByMetricKey
       {| metricType := "performance"; metricEnum := metricEnum;
          dimension := dimension |}
     = inr (getMetricShortNameByMetricKey metricEnum)) /\
  (forall dimension : option Dimension,
     getClusterMetricName getMetricShortNameByMetricKey
       {| metricType := "retrieval"; metricEnum := "queryDistance";
          dimension := dimension |}
     = inr "% Query") /\
  (forall metric : MetricDefinition,
     definedMetric metric ->
     returns (getClusterMetricName getMetricShortNameByMetricKey metric)) /\
  (forall metric : MetricDefinition,
     ~ definedMetric metric ->
     getClusterMetricName getMetricShortNameByMetricKey metric
     = inl (if decide (metricType metric = "dataQuality")
            then TypeError else Unreachable)).
Proof.
  repeat split; try reflexivity.
  - intros [ty en dim] Hdef. unfold definedMetric in Hdef. simpl in Hdef.
    unfold getClusterMetricName. simpl.
    destruct Hdef as [[-> [d ->]]|[[-> ->]|[->|[-> ->]]]];
      simpl; by eexists.
  - intros [ty en dim] Hundef. unfold definedMetric in Hundef. simpl in Hundef.
    unfold getClusterMetricName, assertUnreachable, throw. simpl.
    repeat case_decide; subst; try reflexivity; try discriminate;
      try (exfalso; apply Hundef; tauto).
    destruct dim as [d|]; [|reflexivity].
    exfalso. apply Hundef. left. split; [reflexivity | by eexists].
Qed.

(** The scenario of the specification: a performance metric is labelled
    with the short name the table gives for its key. *)
Example resolve_performance_scenario :
  getClusterMetricName
    (fun key => if decide (key = "accuracyScore") then "accuracy" else key)
    Sample.performance
  = inr "accuracy".
Proof. reflexivity. Qed.

Lemma getClusterMetricName_labels_witness :
  ~ definedMetric {| metricType := "drift"; metricEnum := "cosineDistance";
                     dimension := None |} /\
  getClusterMetricName (fun key => key)
    {| metricType := "drift"; metricEnum := "cosineDistance";
       dimension := None |}
  = inl Unreachable.
Proof.
  assert (H : ~ definedMetric {| metricType := "drift";
                                 metricEnum := "cosineDistance";
                                 dimension := None |}).
  { unfold definedMetric. simpl.
    intros [[H _]|[[_ H]|[H|[H _]]]]; discriminate H. }
  split; [exact H|].
  destruct (getClusterMetricName_labels (fun key => key))
    as (_ & _ & _ & _ & _ & Habort).
  exact (Habort _ H).
Defined.

(** ** The effect of EmbeddingMain *)

(** One run of the effect issues at most one request: either the variables
    were built and [loadQuery] sent them under a fresh reference, or building
    them threw and nothing was sent. *)
Lemma effect_cases {number : Type} (embeddingDimensionId : string)
    (timeRange : TimeRange) (s : Session number) :
  (exists v : Variables number,
     variablesOf embeddingDimensionId timeRange
       (Store.umapParameters (store s)) (Store.clusteringParameters (store s))
       (Store.metric (store s)) = inr v /\
     effect embeddingDimensionId timeRange s = loadQuery v (beforeLoadQuery s))
  \/
  (throws (variablesOf embeddingDimensionId timeRange
             (Store.umapParameters (store s))
             (Store.clusteringParameters (store s))
             (Store.metric (store s))) /\
   effect embeddingDimensionId timeRange s = beforeLoadQuery s).
Proof.
  unfold effect. simpl.
  unfold Store.getMetric, Store.getHDSCANParameters. simpl.
  destruct (variablesOf embeddingDimensionId timeRange
              (Store.umapParameters (store s))
              (Store.clusteringParameters (store s))
              (Store.metric (store s))) as [e|v].
  - right. split; [by exists e | reflexivity].
  - left. exists v. split; reflexivity.
Qed.

(** [toISOString] on a few instants: the epoch, the millisecond before it, a
    leap day, and years outside 0 to 9999. *)
Example toISOString_examples :
  toISOString 0 = "1970-01-01T00:00:00.000Z" /\
  toISOString (-1) = "1969-12-31T23:59:59.999Z" /\
  toISOString 951782400000 = "2000-02-29T00:00:00.000Z" /\
  toISOString 1700000000000 = "2023-11-14T22:13:20.000Z" /\
  toISOString (-62198755200000) = "-000001-01-01T00:00:00.000Z" /\
  toISOString 253402300800000 = "+010000-01-01T00:00:00.000Z".
Proof. vm_compute. repeat split. Qed.

(** C10, as the specification states it, fails: the queried window is not
    always two days long. In the time zone Europe/Berlin, for the end
    2023-10-30T12:00:00Z, two days after the clocks were set back, the
    request starts at 2023-10-28T11:00:00Z: the window has 49 hours. *)
Lemma window_has_49_hours_across_a_clock_change :
  let queryEnd := endTimeOf Sample.newDate (Some 1698667200000%Z)
                    Sample.primaryInferences in
  let timeRange := timeRangeOf Sample.berlinLocalTime Sample.berlinUTC
                     queryEnd in
  end_ timeRange = "2023-10-30T12:00:00.000Z" /\
  start timeRange = "2023-10-28T11:00:00.000Z" /\
  (queryEnd - subDays Sample.berlinLocalTime Sample.berlinUTC queryEnd 2
   = 49 * 3600000)%Z /\
  ~ (forall (LocalTime UTC : Z -> Z) (queryEnd : Z),
       (queryEnd - subDays LocalTime UTC queryEnd 2 = 2 * msPerDay)%Z).
Proof.
  intros queryEnd timeRange.
  split; [vm_compute; reflexivity|]. split; [vm_compute; reflexivity|].
  split; [vm_compute; reflexivity|].
  intros H.
  specialize (H Sample.berlinLocalTime Sample.berlinUTC 1698667200000%Z).
  vm_compute in H. discriminate H.
Qed.

(** C10, amended: the time range of every issued request ends at the
    selected time-slice timestamp, or at the primary inferences' end time
    when no timestamp is selected, and starts at [subDays(end, 2)]: the
    instant of the local wall-clock time two days before that of the end.
    When that wall-clock time exists, the start shows the same time of day two
    calendar days earlier and the window is 48 hours plus the difference of
    the UTC offsets at its two ends; in a time zone whose offset does not
    change the window is exactly two days. The effect sends this very range
    with the request. *)
Theorem timeRange_is_two_calendar_days_before_endTime {number : Type}
    (newDate : string -> Z) (LocalTime UTC : Z -> Z)
    (selectedTimestamp : option Z) (primaryInferences : Inferences) :
  let queryEnd := endTimeOf newDate selectedTimestamp primaryInferences in
  let queryStart := subDays LocalTime UTC queryEnd 2 in
  let timeRange := timeRangeOf LocalTime UTC queryEnd in
  queryEnd = default (newDate (endTime primaryInferences)) selectedTimestamp /\
  end_ timeRange = toISOString queryEnd /\
  start timeRange = toISOString queryStart /\
  queryStart = UTC (LocalTime queryEnd - 2 * msPerDay)%Z /\
  (LocalTime (UTC (LocalTime queryEnd - 2 * msPerDay))
   = LocalTime queryEnd - 2 * msPerDay ->
   LocalTime queryStart = LocalTime queryEnd - 2 * msPerDay /\
   queryEnd - queryStart
   = 2 * msPerDay
     + ((LocalTime queryStart - queryStart) - (LocalTime queryEnd - queryEnd)))%Z /\
  (forall offset : Z,
     (forall t : Z, LocalTime t = t + offset)%Z ->
     (forall t : Z, UTC t = t - offset)%Z ->
     (queryEnd - queryStart = 2 * msPerDay)%Z) /\
  forall (embeddingDimensionId : string) (s : Session number)
         (r : nat) (v : Variables number),
    issued (effect embeddingDimensionId timeRange s) = issued s ++ [(r, v)] ->
    var_timeRange v = timeRange.
Proof.
  intros queryEnd queryStart timeRange.
  assert (Hstart : queryStart = UTC (LocalTime queryEnd - 2 * msPerDay)%Z).
  { unfold queryStart, subDays, addDays.
    rewrite decide_False by discriminate. f_equal. }
  split; [by destruct selectedTimestamp|].
  split; [reflexivity|]. split; [reflexivity|]. split; [exact Hstart|].
  split; [|split].
  - intros Hexists. rewrite Hstart at 1. rewrite Hexists.
    split; [reflexivity|]. rewrite Hstart at 2. rewrite Hexists. lia.
  - intros offset Hlocal Hutc. rewrite Hstart, Hutc, Hlocal. lia.
  - intros id s r v Hissued.
    destruct (effect_cases id timeRange s) as [(v' & Hv' & Heff)|[_ Heff]];
      rewrite Heff in Hissued; simpl in Hissued.
    + apply app_inv_head in Hissued. injection Hissued as _ <-.
      by apply variablesOf_inr in Hv' as (_ & -> & _).
    + exfalso. apply (f_equal length) in Hissued.
      rewrite length_app in Hissued. simpl in Hissued. lia.
Qed.

Lemma timeRange_is_two_calendar_days_before_endTime_witness :
  let queryEnd := endTimeOf Sample.newDate None Sample.primaryInferences in
  let timeRange := timeRangeOf Sample.utcLocalTime Sample.utcUTC queryEnd in
  (queryEnd - subDays Sample.utcLocalTime Sample.utcUTC queryEnd 2
   = 2 * msPerDay)%Z /\
  end_ timeRange = "2023-11-14T22:13:20.000Z" /\
  start timeRange = "2023-11-12T22:13:20.000Z" /\
  exists (r : nat) (v : Variables Z),
    issued (effect "dimension" timeRange (newSession Sample.initialStore))
    = [(r, v)] /\
    var_timeRange v = timeRange.
Proof.
  intros queryEnd timeRange.
  destruct (timeRange_is_two_calendar_days_before_endTime (number := Z)
              Sample.newDate Sample.utcLocalTime Sample.utcUTC
              None Sample.primaryInferences)
    as (_ & _ & _ & _ & _ & Hzone & Hissued).
  split; [apply (Hzone 0%Z); intros t; unfold Sample.utcLocalTime,
            Sample.utcUTC; lia|].
  split; [vm_compute; reflexivity|]. split; [vm_compute; reflexivity|].
  eexists _, _. split; [reflexivity|].
  exact (Hissued "dimension" (newSession Sample.initialStore) _ _ eq_refl).
Defined.

(** C7: every re-query resets [selectedClusterId], [selectedEventIds] and
    [highlightedClusterId] to null, the empty set and null before the new
    request is issued, whatever they were: they are empty in the state in
    which [loadQuery] is called, where the previous request is disposed and
    no new one is out yet, and they are still empty once the effect has
    run. *)
Theorem requery_resets_selection {number : Type} (s : Session number)
    (embeddingDimensionId : string) (timeRange : TimeRange) :
  let before := beforeLoadQuery (cleanup s) in
  let after := requery embeddingDimensionId timeRange s in
  (Store.selectedClusterId (store before) = None /\
   Store.selectedEventIds (store before) = ∅ /\
   Store.highlightedClusterId (store before) = None /\
   queryReference before = None /\
   issued before = issued s) /\
  (after = before \/ exists v : Variables number, after = loadQuery v before) /\
  Store.selectedClusterId (store after) = None /\
  Store.selectedEventIds (store after) = ∅ /\
  Store.highlightedClusterId (store after) = None.
Proof.
  intros before after. split; [repeat split|].
  assert (Hcases : after = before \/
                   exists v : Variables number, after = loadQuery v before).
  { unfold after, requery.
    destruct (effect_cases embeddingDimensionId timeRange (cleanup s))
      as [(v & _ & ->)|[_ ->]]; [right; by exists v | by left]. }
  split; [exact Hcases|].
  destruct Hcases as [->|[v ->]]; repeat split.
Qed.

(** ** The handlers of the clusters panel *)

Lemma run_app {number : Type} (events1 events2 : list (Event number))
    (s : Session number) :
  run (events1 ++ events2) s = run events2 (run events1 s).
Proof. apply fold_left_app. Qed.

(** C8: after any finite sequence of tab changes the color mode is
    [highlight] if and only if the last change selected the
    ["configuration"] tab, and [default] otherwise; and handling the same tab
    twice is the same as handling it once. *)
Theorem onTabChange_last_key_decides {number : Type} (s : Session number)
    (keys : list string) (key : string) :
  let s' := run (TabChange <$> (keys ++ [key])) s in
  (Store.colorMode (store s') = Store.highlight <-> key = "configuration") /\
  (Store.colorMode (store s') = Store.default <-> key <> "configuration") /\
  forall st : Store.State number,
    onTabChange key (onTabChange key st) = onTabChange key st.
Proof.
  intros s'. unfold s'. rewrite fmap_app, run_app. simpl.
  unfold onTabChange.
  destruct (decide (key = "configuration")) as [Hkey|Hkey]; simpl;
    repeat split; try done.
Qed.

(** C6, as the specification states it, fails in its last part: two clicks
    on a cluster are not the identity on the selection. With cluster D
    selected, two clicks on cluster C end with nothing selected. *)
Lemma two_clicks_do_not_restore_another_selection :
  ~ (forall (st : Store.State Z) (c : Cluster Z),
       c ∈ Store.clusters st ->
       Store.selectedClusterId st <> Some (cluster_id c) ->
       Store.selectedClusterId (onClick c (onClick c st))
       = Store.selectedClusterId st /\
       Store.selectedEventIds (onClick c (onClick c st))
       = Store.selectedEventIds st).
Proof.
  intros H.
  destruct (H Sample.storeWithSelection
              (Sample.cluster "C" ["c1"; "c2"; "c1"])) as [Hid _].
  - simpl. apply list_elem_of_here.
  - simpl. discriminate.
  - discriminate Hid.
Qed.

(** C6, amended: clicking a cluster C that is not selected sets
    [selectedClusterId] to C's id and [selectedEventIds] to exactly the set
    of C's member event ids; clicking C while it is selected sets them to
    null and the empty set. Two consecutive clicks on an unselected C thus end
    in the empty selection, which is the pre-click state exactly when nothing
    was selected before; no other field of the store changes. *)
Theorem onClick_toggles_selection {number : Type} (st : Store.State number)
    (c : Cluster number) :
  (Store.selectedClusterId st <> Some (cluster_id c) ->
   Store.selectedClusterId (onClick c st) = Some (cluster_id c) /\
   Store.selectedEventIds (onClick c st) = list_to_set (cluster_eventIds c) /\
   (forall e : string,
      e ∈ Store.selectedEventIds (onClick c st) <-> e ∈ cluster_eventIds c) /\
   Store.selectedClusterId (onClick c (onClick c st)) = None /\
   Store.selectedEventIds (onClick c (onClick c st)) = ∅) /\
  (Store.selectedClusterId st = Some (cluster_id c) ->
   Store.selectedClusterId (onClick c st) = None /\
   Store.selectedEventIds (onClick c st) = ∅) /\
  (Store.selectedClusterId st = None -> Store.selectedEventIds st = ∅ ->
   onClick c (onClick c st) = st) /\
  (Store.selectedClusterId st <> Some (cluster_id c) ->
   (onClick c (onClick c st) = st <->
    Store.selectedClusterId st = None /\ Store.selectedEventIds st = ∅)).
Proof.
  assert (Htwice : Store.selectedClusterId st <> Some (cluster_id c) ->
            onClick c (onClick c st)
            = Store.setSelectedEventIds ∅ (Store.setSelectedClusterId None st)).
  { intros Hne. unfold onClick at 2. rewrite decide_True by exact Hne.
    unfold onClick. simpl. rewrite decide_False by (intros H; by apply H).
    reflexivity. }
  assert (Hselected : Store.selectedClusterId st = Some (cluster_id c) ->
            onClick c st
            = Store.setSelectedEventIds ∅ (Store.setSelectedClusterId None st)).
  { intros Heq. unfold onClick.
    rewrite decide_False by (intros H; by apply H). reflexivity. }
  split; [|split; [|split]].
  - intros Hne. rewrite (Htwice Hne). unfold onClick.
    rewrite decide_True by exact Hne. simpl.
    split; [reflexivity|]. split; [reflexivity|].
    split; [|split; reflexivity].
    intros e. apply elem_of_list_to_set.
  - intros Heq. rewrite (Hselected Heq). split; reflexivity.
  - intros Hid Hids. rewrite Htwice by (rewrite Hid; discriminate).
    destruct st; simpl in *; subst; reflexivity.
  - intros Hne. rewrite (Htwice Hne). split.
    + intros <-. split; reflexivity.
    + intros [Hid Hids]. destruct st; simpl in *; subst; reflexivity.
Qed.

Lemma onClick_toggles_selection_witness :
  Store.selectedClusterId
    (onClick (Sample.cluster "C" ["c1"; "c2"; "c1"]) Sample.storeWithSelection)
  = Some "C" /\
  Store.selectedEventIds
    (onClick (Sample.cluster "C" ["c1"; "c2"; "c1"]) Sample.storeWithSelection)
  = {["c1"; "c2"]}.
Proof.
  destruct (onClick_toggles_selection Sample.storeWithSelection
              (Sample.cluster "C" ["c1"; "c2"; "c1"]))
    as [Hclick _].
  destruct Hclick as (Hid & Hids & _); [simpl; discriminate|].
  split; [exact Hid|].
  rewrite Hids. simpl. set_solver.
Defined.

(** * Further properties of the page *)

(** ** The point normalizer, continued *)

(** [mapE] throws what the callback throws on the first element it throws
    on. *)
Lemma mapE_inl {A B : Type} (f : A -> result B) (l : list A) (e : exn) :
  mapE f l = inl e <->
  exists (pre : list A) (a : A) (post : list A),
    l = pre ++ a :: post /\ Forall (fun x => returns (f x)) pre /\ f a = inl e.
Proof.
  induction l as [|a l IH]; simpl.
  - split; [discriminate|].
    intros (pre & a & post & Hl & _). by destruct pre.
  - destruct (f a) as [e'|b] eqn:Hfa; simpl.
    + split.
      * intros [= ->]. exists [], a, l. by repeat split.
      * intros (pre & a' & post & Hl & Hpre & Ha').
        destruct pre as [|x pre]; simpl in Hl; injection Hl as <- Hl.
        -- congruence.
        -- apply Forall_cons in Hpre as [[b Hb] _]. congruence.
    + destruct (mapE f l) as [e'|bs]; simpl.
      * split.
        -- intros [= ->].
           destruct (proj1 IH eq_refl) as (pre & a' & post & -> & Hpre & Ha').
           exists (a :: pre), a', post. split; [reflexivity|].
           split; [|exact Ha']. apply Forall_cons. split; [by exists b | exact Hpre].
        -- intros (pre & a' & post & Hl & Hpre & Ha').
           destruct pre as [|x pre]; simpl in Hl; injection Hl as <- Hl.
           ++ congruence.
           ++ apply Forall_cons in Hpre as [_ Hpre]. f_equal.
              assert (Hgoal : inl e' = (inl e : result (list B))).
              { apply IH. by exists pre, a', post. }
              by injection Hgoal.
      * split; [discriminate|].
        intros (pre & a' & post & Hl & Hpre & Ha').
        destruct pre as [|x pre]; simpl in Hl; injection Hl as <- Hl.
        -- congruence.
        -- apply Forall_cons in Hpre as [_ Hpre].
           assert (Hgoal : inr bs = (inl e : result (list B))).
           { apply IH. by exists pre, a', post. }
           discriminate Hgoal.
Qed.

Lemma mapE_app {A B : Type} (f : A -> result B) (l1 l2 : list A) (out : list B) :
  mapE f (l1 ++ l2) = inr out <->
  exists out1 out2 : list B,
    mapE f l1 = inr out1 /\ mapE f l2 = inr out2 /\ out = out1 ++ out2.
Proof.
  rewrite mapE_inr, Forall2_app_inv_l.
  split; intros (out1 & out2 & H1 & H2 & ->); exists out1, out2;
    (split; [by apply mapE_inr|]); (split; [by apply mapE_inr|]); reflexivity.
Qed.

Lemma returns_or_throws_toPoint {number : Type} (d : UMAPPointsEntry number) :
  (returns (toPoint d) /\ isPoint3D d) \/ (throws (toPoint d) /\ ~ isPoint3D d).
Proof.
  unfold toPoint, isPoint3D.
  destruct (entry_coordinates d) as [x y|x y z]; simpl.
  - right. split; [by eexists | discriminate].
  - left. split; [by eexists | reflexivity].
Qed.

(** X1: the normalizer throws for the first record, in the order primary,
    reference, corpus, that is not tagged [Point3D], and what it throws is
    the [Error] whose message names the tag of that record, "Expected Point3D
    but got ... for coordinates"; it throws nothing else. *)
Theorem allSourceData_throws_for_the_first_refused_record {number : Type}
    (sourceData referenceSourceData corpusSourceData
       : list (UMAPPointsEntry number)) (e : exn) :
  allSourceData sourceData referenceSourceData corpusSourceData = inl e <->
  exists (before : list (UMAPPointsEntry number)) (d : UMAPPointsEntry number)
         (after : list (UMAPPointsEntry number)),
    sourceData ++ referenceSourceData ++ corpusSourceData
    = before ++ d :: after /\
    Forall isPoint3D before /\
    ~ isPoint3D d /\
    e = Error ("Expected Point3D but got "
               +:+ __typename (entry_coordinates d) +:+ " for coordinates").
Proof.
  assert (HtoPoint : forall (d : UMAPPointsEntry number) (e' : exn),
            toPoint d = inl e' <->
            ~ isPoint3D d /\
            e' = Error ("Expected Point3D but got "
                        +:+ __typename (entry_coordinates d)
                        +:+ " for coordinates")).
  { intros d e'. unfold toPoint, isPoint3D.
    destruct (entry_coordinates d) as [x y|x y z]; simpl.
    - split; [intros [= <-]; split; [discriminate | reflexivity]|].
      by intros [_ ->].
    - split; [discriminate | intros [H _]; by destruct H]. }
  assert (Hreturns : forall d : UMAPPointsEntry number,
            returns (toPoint d) <-> isPoint3D d).
  { intros d. destruct (returns_or_throws_toPoint d) as [[Hr Hd]|[Ht Hd]].
    - done.
    - split; [|done]. intros [p Hp]. destruct Ht as [e' He']. congruence. }
  unfold allSourceData. rewrite mapE_inl. split.
  - intros (before & d & after & Hl & Hbefore & Hd).
    exists before, d, after. split; [exact Hl|]. split.
    + eapply Forall_impl; [exact Hbefore|]. intros x Hx. by apply Hreturns.
    + by apply HtoPoint.
  - intros (before & d & after & Hl & Hbefore & Hd & He).
    exists before, d, after. split; [exact Hl|]. split.
    + eapply Forall_impl; [exact Hbefore|]. intros x Hx. by apply Hreturns.
    + by apply HtoPoint.
Qed.

Lemma allSourceData_throws_for_the_first_refused_record_witness :
  allSourceData [Sample.p1] [Sample.flat] [Sample.p2]
  = inl (Error "Expected Point3D but got Point2D for coordinates").
Proof.
  apply allSourceData_throws_for_the_first_refused_record.
  exists [Sample.p1], Sample.flat, [Sample.p2].
  split; [reflexivity|]. split; [repeat constructor|].
  split; [discriminate | reflexivity].
Defined.

(** X2: every point the normalizer returns has a position of exactly three
    coordinates, comes from a record tagged [Point3D], and has its own
    [eventId] as [metaData.id]. *)
Theorem allSourceData_points_are_three_dimensional {number : Type}
    (sourceData referenceSourceData corpusSourceData
       : list (UMAPPointsEntry number)) (out : list (Point number)) :
  allSourceData sourceData referenceSourceData corpusSourceData = inr out ->
  Forall (fun p : Point number =>
            length (position p) = 3 /\
            __typename (point_coordinates p) = "Point3D" /\
            metaData_id (metaData p) = point_eventId p) out.
Proof.
  unfold allSourceData. intros H. apply mapE_inr in H.
  apply Forall_forall. intros p Hp.
  apply list_elem_of_lookup in Hp as [i Hi].
  destruct (Forall2_lookup_r _ _ _ _ _ H Hi) as (d & _ & Hdp).
  apply toPoint_inr in Hdp as (x & y & z & Hc & ->). simpl.
  rewrite Hc. repeat split.
Qed.

Lemma allSourceData_points_are_three_dimensional_witness :
  exists out : list (Point Z),
    allSourceData [Sample.p1] [Sample.p2] [] = inr out /\
    Forall (fun p : Point Z => length (position p) = 3) out.
Proof.
  eexists. split; [reflexivity|].
  eapply Forall_impl.
  - exact (allSourceData_points_are_three_dimensional
             [Sample.p1] [Sample.p2] [] _ eq_refl).
  - intros p (Hlen & _). exact Hlen.
Defined.

(** X3: normalizing a response is the same as normalizing its three arrays
    one by one and concatenating the results, primary first, then reference,
    then corpus: the whole succeeds exactly when each array does. *)
Theorem allSourceData_concatenates {number : Type}
    (sourceData referenceSourceData corpusSourceData
       : list (UMAPPointsEntry number)) (out : list (Point number)) :
  allSourceData sourceData referenceSourceData corpusSourceData = inr out <->
  exists outPrimary outReference outCorpus : list (Point number),
    allSourceData sourceData [] [] = inr outPrimary /\
    allSourceData [] referenceSourceData [] = inr outReference /\
    allSourceData [] [] corpusSourceData = inr outCorpus /\
    out = outPrimary ++ outReference ++ outCorpus.
Proof.
  unfold allSourceData. simpl. rewrite !app_nil_r. rewrite mapE_app.
  split.
  - intros (o1 & o23 & H1 & H23 & ->).
    apply mapE_app in H23 as (o2 & o3 & H2 & H3 & ->).
    by exists o1, o2, o3.
  - intros (o1 & o2 & o3 & H1 & H2 & H3 & ->).
    exists o1, (o2 ++ o3). split; [exact H1|]. split; [|reflexivity].
    apply mapE_app. by exists o2, o3.
Qed.

(** ** The request variables and the metric label *)

(** The two outcomes of [variablesOf], read off its definition. *)
Lemma variablesOf_cases {number : Type} (embeddingDimensionId : string)
    (timeRange : TimeRange) (umapParameters : Store.UMAPParameters number)
    (hdbscanParameters : Store.ClusteringParameters number)
    (metric : MetricDefinition) :
  (metricType metric = "dataQuality" /\ dimension metric = None /\
   variablesOf embeddingDimensionId timeRange umapParameters hdbscanParameters
     metric = inl TypeError) \/
  (exists v : Variables number,
     variablesOf embeddingDimensionId timeRange umapParameters hdbscanParameters
       metric = inr v /\
     fetchDataQualityMetric v = bool_decide (metricType metric = "dataQuality") /\
     fetchPerformanceMetric v = bool_decide (metricType metric = "performance") /\
     dataQualityMetricColumnName v
     = (if decide (metricType metric = "dataQuality")
        then dimension_name <$> dimension metric else None) /\
     performanceMetric v
     = Some (if decide (metricType metric = "performance")
             then metricEnum metric else "accuracyScore") /\
     (metricType metric = "dataQuality" -> is_Some (dimension metric))).
Proof.
  unfold variablesOf.
  destruct (decide (metricType metric = "dataQuality")) as [Hdq|Hdq].
  - destruct (dimension metric) as [d|] eqn:Hd; simpl.
    + right. eexists. split; [reflexivity|]. simpl.
      repeat split. intros _. by eexists.
    + left. repeat split; assumption.
  - right. simpl. eexists. split; [reflexivity|]. simpl.
    repeat split. intros H. by destruct Hdq.
Qed.

Lemma variablesOf_throws_when {number : Type} (embeddingDimensionId : string)
    (timeRange : TimeRange) (umapParameters : Store.UMAPParameters number)
    (hdbscanParameters : Store.ClusteringParameters number)
    (metric : MetricDefinition) :
  (throws (variablesOf embeddingDimensionId timeRange umapParameters
             hdbscanParameters metric)
   <-> metricType metric = "dataQuality" /\ dimension metric = None) /\
  (returns (variablesOf embeddingDimensionId timeRange umapParameters
              hdbscanParameters metric)
   <-> ~ (metricType metric = "dataQuality" /\ dimension metric = None)).
Proof.
  destruct (variablesOf_cases embeddingDimensionId timeRange umapParameters
              hdbscanParameters metric)
    as [(Hty & Hdim & Hv)|(v & Hv & _ & _ & _ & _ & Hsome)]; rewrite Hv.
  - split.
    + split; [done | intros _; by eexists].
    + split; [intros [a Ha]; discriminate Ha | intros H; by destruct H].
  - assert (Hnot : ~ (metricType metric = "dataQuality" /\ dimension metric = None)).
    { intros [Hty Hdim]. destruct (Hsome Hty) as [d Hd]. congruence. }
    split.
    + split; [intros [e He]; discriminate He | intros H; by destruct Hnot].
    + split; [done | intros _; by eexists].
Qed.

(** X4: building the request variables throws exactly when the metric is a
    data quality metric without a dimension, and what is thrown is then a
    [TypeError]; for every other metric object, whatever its tag, the
    variables are built. *)
Theorem variablesOf_throws_iff {number : Type} (embeddingDimensionId : string)
    (timeRange : TimeRange) (umapParameters : Store.UMAPParameters number)
    (hdbscanParameters : Store.ClusteringParameters number)
    (metric : MetricDefinition) :
  (throws (variablesOf embeddingDimensionId timeRange umapParameters
             hdbscanParameters metric)
   <-> metricType metric = "dataQuality" /\ dimension metric = None) /\
  (returns (variablesOf embeddingDimensionId timeRange umapParameters
              hdbscanParameters metric)
   <-> ~ (metricType metric = "dataQuality" /\ dimension metric = None)) /\
  forall e : exn,
    variablesOf embeddingDimensionId timeRange umapParameters
      hdbscanParameters metric = inl e <-> 
    e = TypeError /\ metricType metric = "dataQuality" /\ dimension metric = None.
Proof.
  destruct (variablesOf_throws_when embeddingDimensionId timeRange
              umapParameters hdbscanParameters metric) as [Hthrows Hreturns].
  split; [exact Hthrows|]. split; [exact Hreturns|].
  intros e. split.
  - intros He.
    assert (Hcond : metricType metric = "dataQuality" /\ dimension metric = None)
      by (apply Hthrows; by exists e).
    split; [|exact Hcond].
    destruct (variablesOf_cases embeddingDimensionId timeRange umapParameters
                hdbscanParameters metric)
      as [(_ & _ & Hv)|(v & Hv & _)]; congruence.
  - intros (-> & Hcond).
    destruct (variablesOf_cases embeddingDimensionId timeRange umapParameters
                hdbscanParameters metric)
      as [(_ & _ & Hv)|(v & _ & _ & _ & _ & _ & Hsome)]; [exact Hv|].
    destruct Hcond as [Hty Hdim]. destruct (Hsome Hty) as [d Hd]. congruence.
Qed.

(** X5: in the variables of a request the column name is present exactly
    when [fetchDataQualityMetric] is set, the two fetch flags are never both
    set, and [performanceMetric] is always present. *)
Theorem variablesOf_flags_are_coherent {number : Type}
    (embeddingDimensionId : string)
    (timeRange : TimeRange) (umapParameters : Store.UMAPParameters number)
    (hdbscanParameters : Store.ClusteringParameters number)
    (metric : MetricDefinition) (v : Variables number) :
  variablesOf embeddingDimensionId timeRange umapParameters hdbscanParameters
    metric = inr v ->
  (is_Some (dataQualityMetricColumnName v) <-> fetchDataQualityMetric v = true) /\
  ~ (fetchDataQualityMetric v = true /\ fetchPerformanceMetric v = true) /\
  is_Some (performanceMetric v).
Proof.
  intros Hv.
  destruct (variablesOf_cases embeddingDimensionId timeRange umapParameters
              hdbscanParameters metric)
    as [(_ & _ & Hthrow)|(v' & Hv' & Hdq & Hperf & Hname & Hmetric & Hsome)];
    [congruence|].
  assert (v' = v) as -> by congruence.
  rewrite Hdq, Hperf, Hname, Hmetric, !bool_decide_eq_true.
  split; [|split; [|by eexists]].
  - destruct (decide (metricType metric = "dataQuality")) as [Hty|Hty].
    + split; [done|]. intros _. destruct (Hsome Hty) as [d ->]. by eexists.
    + split; [intros [n Hn]; discriminate Hn | done].
  - intros [H1 H2]. rewrite H1 in H2. discriminate H2.
Qed.

Lemma variablesOf_flags_are_coherent_witness :
  exists v : Variables Z,
    variablesOf "dimension" Sample.timeRange Sample.umapParameters
      Sample.clusteringParameters Sample.performance = inr v /\
    ~ is_Some (dataQualityMetricColumnName v) /\
    is_Some (performanceMetric v).
Proof.
  eexists. split; [reflexivity|].
  destruct (variablesOf_flags_are_coherent "dimension" Sample.timeRange
              Sample.umapParameters Sample.clusteringParameters
              Sample.performance _ eq_refl) as (Hname & _ & Hmetric).
  split; [|exact Hmetric].
  intros H. apply Hname in H. discriminate H.
Defined.

(** X6: the label shown for the clusters names what was requested: when the
    request fetches a performance metric the label is the short name of the
    [performanceMetric] sent, and when it fetches a data quality metric the
    label is the column name sent followed by " avg". *)
Theorem label_names_the_requested_metric {number : Type}
    (getMetricShortNameByMetricKey : string -> string)
    (embeddingDimensionId : string)
    (timeRange : TimeRange) (umapParameters : Store.UMAPParameters number)
    (hdbscanParameters : Store.ClusteringParameters number)
    (metric : MetricDefinition) (v : Variables number) (label : string) :
  variablesOf embeddingDimensionId timeRange umapParameters hdbscanParameters
    metric = inr v ->
  getClusterMetricName getMetricShortNameByMetricKey metric = inr label ->
  (fetchPerformanceMetric v = true ->
   exists key : string,
     performanceMetric v = Some key /\
     label = getMetricShortNameByMetricKey key) /\
  (fetchDataQualityMetric v = true ->
   exists columnName : string,
     dataQualityMetricColumnName v = Some columnName /\
     label = columnName +:+ " avg").
Proof.
  intros Hv Hlabel.
  destruct (variablesOf_cases embeddingDimensionId timeRange umapParameters
              hdbscanParameters metric)
    as [(_ & _ & Hthrow)|(v' & Hv' & Hdq & Hperf & Hname & Hmetric & Hsome)];
    [congruence|].
  assert (v' = v) as -> by congruence.
  rewrite Hdq, Hperf, Hname, Hmetric, !bool_decide_eq_true.
  unfold getClusterMetricName in Hlabel. split.
  - intros Hty. rewrite decide_True by exact Hty.
    eexists. split; [reflexivity|].
    rewrite decide_False in Hlabel by (rewrite Hty; discriminate).
    rewrite decide_False in Hlabel by (rewrite Hty; discriminate).
    rewrite decide_True in Hlabel by exact Hty.
    by injection Hlabel as <-.
  - intros Hty. rewrite decide_True by exact Hty.
    rewrite decide_True in Hlabel by exact Hty.
    destruct (dimension metric) as [d|]; simpl in Hlabel; [|discriminate].
    exists (dimension_name d). split; [reflexivity|].
    by injection Hlabel as <-.
Qed.

Lemma label_names_the_requested_metric_witness :
  exists (v : Variables Z) (label : string),
    variablesOf "dimension" Sample.timeRange Sample.umapParameters
      Sample.clusteringParameters Sample.dataQuality = inr v /\
    getClusterMetricName (fun key => key) Sample.dataQuality = inr label /\
    dataQualityMetricColumnName v = Some "age" /\
    label = "age avg".
Proof.
  eexists _, _. split; [reflexivity|]. split; [reflexivity|].
  destruct (label_names_the_requested_metric (fun key => key) "dimension"
              Sample.timeRange Sample.umapParameters Sample.clusteringParameters
              Sample.dataQuality _ _ eq_refl eq_refl) as [_ Hdq].
  destruct (Hdq eq_refl) as (columnName & Hname & Hlabel).
  simpl in Hname. injection Hname as <-.
  split; [reflexivity|]. exact Hlabel.
Defined.

(** X7: the label and the request fail on a missing dimension together: the
    resolver raises a [TypeError] exactly when the request variables cannot
    be built; hence every metric the resolver has a label for can be
    requested. The converse fails: an unhandled drift or retrieval enum is
    requested, although the resolver aborts on it. *)
Theorem resolver_and_variables_fail_together {number : Type}
    (getMetricShortNameByMetricKey : string -> string)
    (embeddingDimensionId : string)
    (timeRange : TimeRange) (umapParameters : Store.UMAPParameters number)
    (hdbscanParameters : Store.ClusteringParameters number) :
  (forall metric : MetricDefinition,
     getClusterMetricName getMetricShortNameByMetricKey metric = inl TypeError
     <-> throws (variablesOf embeddingDimensionId timeRange umapParameters
                   hdbscanParameters metric)) /\
  (forall metric : MetricDefinition,
     returns (getClusterMetricName getMetricShortNameByMetricKey metric) ->
     returns (variablesOf embeddingDimensionId timeRange umapParameters
                hdbscanParameters metric)) /\
  (forall metricEnum : string,
     metricEnum <> "euclideanDistance" ->
     let metric := {| metricType := "drift"; metricEnum := metricEnum;
                      dimension := None |} in
     getClusterMetricName getMetricShortNameByMetricKey metric = inl Unreachable /\
     returns (variablesOf embeddingDimensionId timeRange umapParameters
                hdbscanParameters metric)).
Proof.
  assert (Hiff : forall metric : MetricDefinition,
     getClusterMetricName getMetricShortNameByMetricKey metric = inl TypeError
     <-> throws (variablesOf embeddingDimensionId timeRange umapParameters
                   hdbscanParameters metric)).
  { intros metric.
    destruct (variablesOf_throws_when embeddingDimensionId timeRange
                umapParameters hdbscanParameters metric) as (-> & _).
    unfold getClusterMetricName, assertUnreachable, throw.
    destruct (decide (metricType metric = "dataQuality")) as [Hty|Hty].
    - destruct (dimension metric) as [d|]; simpl.
      + split; [discriminate | intros [_ H]; discriminate H].
      + split; done.
    - split; [|intros [H _]; by destruct Hty].
      repeat case_decide; discriminate. }
  split; [exact Hiff|]. split.
  - intros metric [label Hlabel].
    destruct (variablesOf_throws_when embeddingDimensionId timeRange
                umapParameters hdbscanParameters metric) as (_ & ->).
    intros Hmissing.
    assert (Hthrows : throws (variablesOf embeddingDimensionId timeRange
                                umapParameters hdbscanParameters metric)).
    { by apply (variablesOf_throws_when embeddingDimensionId timeRange
                  umapParameters hdbscanParameters metric). }
    apply Hiff in Hthrows. congruence.
  - intros metricEnum Hne metric. split.
    + unfold getClusterMetricName, assertUnreachable, throw, metric. simpl.
      by rewrite decide_False.
    + by eexists.
Qed.

Lemma resolver_and_variables_fail_together_witness :
  getClusterMetricName (fun key => key) Sample.dataQualityWithoutDimension
  = inl TypeError /\
  throws (variablesOf (number := Z) "dimension" Sample.timeRange
            Sample.umapParameters Sample.clusteringParameters
            Sample.dataQualityWithoutDimension) /\
  returns (variablesOf (number := Z) "dimension" Sample.timeRange
             Sample.umapParameters Sample.clusteringParameters Sample.drift).
Proof.
  destruct (resolver_and_variables_fail_together (number := Z)
              (fun key => key) "dimension" Sample.timeRange
              Sample.umapParameters Sample.clusteringParameters)
    as (Hiff & Hreturns & _).
  split; [reflexivity|]. split.
  - by apply Hiff.
  - apply Hreturns. by eexists.
Defined.

(** ** The request lifecycle, continued *)

(** What a re-query does to the session, field by field. *)
Lemma requery_cases {number : Type} (embeddingDimensionId : string)
    (timeRange : TimeRange) (s : Session number) :
  let s' := requery embeddingDimensionId timeRange s in
  store s' = Store.setLoading true (Store.reset (store s)) /\
  disposed s' = disposed (cleanup s) /\
  ((exists v : Variables number,
      variablesOf embeddingDimensionId timeRange
        (Store.umapParameters (store s)) (Store.clusteringParameters (store s))
        (Store.metric (store s)) = inr v /\
      queryReference s' = Some (nextReference s) /\
      nextReference s' = S (nextReference s) /\
      issued s' = issued s ++ [(nextReference s, v)]) \/
   (throws (variablesOf embeddingDimensionId timeRange
              (Store.umapParameters (store s))
              (Store.clusteringParameters (store s))
              (Store.metric (store s))) /\
    queryReference s' = None /\
    nextReference s' = nextReference s /\
    issued s' = issued s)).
Proof.
  intros s'. unfold s', requery.
  destruct (effect_cases embeddingDimensionId timeRange (cleanup s))
    as [(v & Hv & ->)|[Hthrows ->]].
  - split; [reflexivity|]. split; [reflexivity|]. left. by exists v.
  - split; [reflexivity|]. split; [reflexivity|]. by right.
Qed.

(** X8: when the variables cannot be built (a data quality metric without a
    dimension), a re-query has already disposed the previous request, reset
    the store and set [loading] when the exception leaves the effect: no
    request is issued and none is current, yet [loading] is true. *)
Theorem requery_that_throws_leaves_loading_set {number : Type}
    (embeddingDimensionId : string) (timeRange : TimeRange)
    (s : Session number) :
  metricType (Store.metric (store s)) = "dataQuality" ->
  dimension (Store.metric (store s)) = None ->
  let s' := requery embeddingDimensionId timeRange s in
  issued s' = issued s /\
  queryReference s' = None /\
  disposed s' = disposed (cleanup s) /\
  store s' = Store.setLoading true (Store.reset (store s)) /\
  Store.loading (store s') = true.
Proof.
  intros Hty Hdim s'.
  destruct (requery_cases embeddingDimensionId timeRange s)
    as (Hstore & Hdisposed & [(v & Hv & _)|(_ & Hq & _ & Hissued)]).
  - exfalso.
    assert (Hr : returns (variablesOf embeddingDimensionId timeRange
                            (Store.umapParameters (store s))
                            (Store.clusteringParameters (store s))
                            (Store.metric (store s)))) by (by exists v).
    apply variablesOf_throws_when in Hr. by apply Hr.
  - unfold s'. rewrite Hstore. repeat split; assumption.
Qed.

Lemma requery_that_throws_leaves_loading_set_witness :
  let s' := requery "dimension" Sample.timeRange
              (newSession Sample.storeWithoutDimension) in
  issued s' = [] /\ queryReference s' = None /\
  Store.loading (store s') = true.
Proof.
  intros s'.
  destruct (requery_that_throws_leaves_loading_set "dimension" Sample.timeRange
              (newSession Sample.storeWithoutDimension) eq_refl eq_refl)
    as (Hissued & Hq & _ & _ & Hloading).
  repeat split; assumption.
Defined.

(** X10: only a re-query issues a request, and it issues at most one: along
    any execution the requests issued so far are kept, in order, and their
    number grows by at most the number of re-queries. *)
Theorem requests_grow_only_by_requeries {number : Type}
    (events : list (Event number)) (s : Session number) :
  issued s `prefix_of` issued (run events s) /\
  length (issued (run events s))
  <= length (issued s) + length (filter (fun e => isRequery e = true) events).
Proof.
  revert s. induction events as [|e events IH]; intros s.
  - simpl. split; [reflexivity | lia].
  - assert (Hstep : exists k : list (nat * Variables number),
              issued (step s e) = issued s ++ k /\
              length k <= (if isRequery e then 1 else 0)).
    { destruct e as [id tr| |r payload|r message|c|c| |key]; cbn [step isRequery];
        try (exists []; rewrite app_nil_r; split; [reflexivity | simpl; lia]).
      - destruct (requery_cases id tr s)
          as (_ & _ & [(v & _ & _ & _ & ->)|(_ & _ & _ & ->)]).
        + exists [(nextReference s, v)]. split; [reflexivity | simpl; lia].
        + exists []. rewrite app_nil_r. split; [reflexivity | simpl; lia].
      - exists []. rewrite app_nil_r. split; [|simpl; lia].
        unfold onResponse. case_decide; [|reflexivity].
        by destruct (PointCloudDisplay payload (store s)).
      - exists []. rewrite app_nil_r. split; [|simpl; lia].
        unfold onRequestFailure. by case_decide. }
    destruct Hstep as (k & Hk & Hlen).
    destruct (IH (step s e)) as [Hprefix Hbound]. simpl. split.
    + etrans; [|exact Hprefix]. rewrite Hk. by apply prefix_app_r.
    + rewrite Hk, length_app in Hbound.
      rewrite filter_cons. destruct (isRequery e) eqn:He.
      * rewrite decide_True by reflexivity. simpl. lia.
      * rewrite decide_False by discriminate. lia.
Qed.

(** The invariant of executions. *)
Lemma newSession_consistent {number : Type} (st : Store.State number) :
  consistent (newSession st).
Proof.
  unfold consistent. simpl. split; [reflexivity|]. split; [constructor|].
  split.
  - intros r. split; [lia | intros [H|H]; [discriminate H | by inversion H]].
  - intros r H. discriminate H.
Qed.

Lemma cleanup_consistent {number : Type} (s : Session number) :
  consistent s -> consistent (cleanup s) /\ queryReference (cleanup s) = None.
Proof.
  intros (Hissued & Hnodup & Hall & Hcur). split; [|reflexivity].
  unfold consistent. simpl. split; [exact Hissued|].
  destruct (queryReference s) as [r|] eqn:Hq.
  - destruct (Hcur r eq_refl) as [Hnotin _]. split; [|split].
    + apply NoDup_app. split; [exact Hnodup|]. split; [|apply NoDup_singleton].
      intros x Hx Hx'. apply list_elem_of_singleton in Hx'. by subst.
    + intros r'. rewrite Hall, elem_of_app, list_elem_of_singleton.
      split.
      * intros [[= ->]|H]; right; [by right | by left].
      * intros [H|[H| ->]]; [discriminate H | by right | by left].
    + intros r' H. discriminate H.
  - split; [exact Hnodup|]. split; [exact Hall|]. intros r' H. discriminate H.
Qed.

Lemma step_consistent {number : Type} (s : Session number) (e : Event number) :
  consistent s -> consistent (step s e).
Proof.
  intros Hs.
  destruct e as [id tr| |r payload|r message|c|c| |key]; cbn [step];
    try exact Hs.
  - destruct (cleanup_consistent s Hs) as [(Hissued & Hnodup & Hall & _) Hnone].
    simpl in Hissued.
    destruct (requery_cases id tr s)
      as (_ & Hd & [(v & _ & Hq & Hn & Hi)|(_ & Hq & Hn & Hi)]);
      unfold consistent; rewrite Hd, Hq, Hn, Hi.
    + split; [|split; [exact Hnodup|split]].
      * rewrite fmap_app, Hissued, seq_S. reflexivity.
      * intros r. split.
        -- intros Hlt. destruct (decide (r = nextReference s)) as [->|Hne].
           ++ by left.
           ++ right. assert (Hlt' : r < nextReference s) by lia.
              apply Hall in Hlt' as [H|H]; [|exact H].
              rewrite Hnone in H. discriminate H.
        -- intros [[= ->]|H]; [lia|].
           assert (r < nextReference s); [|lia].
           apply Hall. by right.
      * intros r [= <-]. split; [|reflexivity].
        intros H. assert (nextReference s < nextReference s); [|lia].
        apply Hall. by right.
    + split; [exact Hissued|]. split; [exact Hnodup|]. split.
      * intros r. rewrite (Hall r), Hnone. reflexivity.
      * intros r H. discriminate H.
  - apply cleanup_consistent, Hs.
  - unfold onResponse. case_decide; [|exact Hs].
    destruct (PointCloudDisplay payload (store s));
      [apply cleanup_consistent, Hs | exact Hs].
  - unfold onRequestFailure.
    case_decide; [apply cleanup_consistent, Hs | exact Hs].
Qed.

Lemma run_consistent {number : Type} (events : list (Event number))
    (s : Session number) :
  consistent s -> consistent (run events s).
Proof.
  revert s. induction events as [|e events IH]; intros s Hs; simpl.
  - exact Hs.
  - apply IH. by apply step_consistent.
Qed.

(** While the page stays mounted, [loading] is set only while a reference
    is current. *)
Lemma step_mounted_loading {number : Type} (s : Session number)
    (e : Event number) :
  ~ unmounts e s ->
  (Store.loading (store s) = true -> is_Some (queryReference s)) ->
  Store.loading (store (step s e)) = true ->
  is_Some (queryReference (step s e)).
Proof.
  intros Hmounted Hinv.
  destruct e as [id tr| |r payload|r message|c|c| |key]; cbn [step unmounts] in *.
  - intros _.
    destruct (requery_cases id tr s)
      as (_ & _ & [(v & _ & -> & _)|(Hthrows & _)]); [by eexists|].
    exfalso. apply Hmounted.
    destruct Hthrows as [err Herr]. exists err.
    exact Herr.
  - by destruct Hmounted.
  - unfold onResponse, PointCloudDisplay.
    destruct (decide (queryReference s = Some r)) as [Hr|Hr]; [|exact Hinv].
    destruct (allSourceData (data payload) (referenceData payload)
                (corpusData payload)) as [err|points] eqn:Hpoints; simpl.
    + exfalso. apply Hmounted. split; [exact Hr | by exists err].
    + discriminate.
  - unfold onRequestFailure.
    destruct (decide (queryReference s = Some r)) as [Hr|Hr]; [|exact Hinv].
    by destruct Hmounted.
  - unfold onClick. simpl. destruct (decide _); exact Hinv.
  - exact Hinv.
  - exact Hinv.
  - unfold onTabChange. simpl. destruct (decide _); exact Hinv.
Qed.

Lemma run_mounted_loading {number : Type} (events : list (Event number))
    (s : Session number) :
  staysMounted events s ->
  (Store.loading (store s) = true -> is_Some (queryReference s)) ->
  Store.loading (store (run events s)) = true ->
  is_Some (queryReference (run events s)).
Proof.
  revert s. induction events as [|e events IH]; intros s Hmounted Hinv; simpl.
  - exact Hinv.
  - destruct Hmounted as [He Hrest]. apply IH; [exact Hrest|].
    by apply step_mounted_loading.
Qed.

(** C4, as the specification states it, fails: neither the disposal of a
    request nor its failure clears [loading]. After a request is issued and
    the page is torn down, [loading] is still true although no request is
    outstanding; and after a request is issued and fails, [loading] is still
    true and no error message is set, the page having no handler for the
    failure. *)
Lemma loading_stays_true_after_disposal :
  ~ (forall (events : list (Event Z)) (st : Store.State Z),
       Store.loading st = false ->
       Store.loading (store (run events (newSession st))) = true ->
       queryReference (run events (newSession st)) <> None) /\
  (let s := run [Requery "dimension" Sample.timeRange;
                 RequestFailure 0 "Failed to fetch"]
              (newSession Sample.initialStore) in
   Store.loading (store s) = true /\
   Store.errorMessage (store s) = None /\
   queryReference s = None).
Proof.
  split.
  - intros H.
    apply (H [Requery "dimension" Sample.timeRange; Teardown]
             Sample.initialStore); reflexivity.
  - repeat split.
Qed.

(** C4, amended: while the page stays mounted (no teardown and no exception
    that nothing catches), [loading] is true only while a request is current,
    issued and not disposed. [loading] is true immediately after the effect
    has issued a request and false immediately after [setInitialData], and no
    other event changes it. A failure of the request is not captured: it
    leaves the store as it is, [loading] and [errorMessage] included; and
    disposing a request at teardown does not change the store either, so that
    after a teardown or a failure [loading] keeps the value it had. *)
Theorem loading_follows_the_request {number : Type} (s : Session number) :
  (forall (st : Store.State number) (events : list (Event number)),
     Store.loading st = false ->
     staysMounted events (newSession st) ->
     Store.loading (store (run events (newSession st))) = true ->
     exists r : nat,
       queryReference (run events (newSession st)) = Some r /\
       r ∈ fst <$> issued (run events (newSession st)) /\
       (r ∉ disposed (run events (newSession st)))) /\
  (forall (embeddingDimensionId : string) (timeRange : TimeRange),
     Store.loading (store (requery embeddingDimensionId timeRange s)) = true) /\
  (forall (points : list (Point number)) (clusters : list (Cluster number))
          (retrievals : list (ContextRetrieval number)),
     Store.loading (Store.setInitialData points clusters retrievals (store s))
     = false) /\
  (forall (r : nat) (payload : UMAPPoints number) (points : list (Point number)),
     queryReference s = Some r ->
     allSourceData (data payload) (referenceData payload) (corpusData payload)
     = inr points ->
     store (onResponse r payload s)
     = Store.setInitialData points (clusters payload)
         (contextRetrievals payload) (store s) /\
     Store.loading (store (onResponse r payload s)) = false) /\
  (forall (r : nat) (message : string),
     store (onRequestFailure r message s) = store s) /\
  (store (step s Teardown) = store s /\
   queryReference (step s Teardown) = None) /\
  (forall e : Event number,
     Store.loading (store (step s e)) <> Store.loading (store s) ->
     (isRequery e = true /\ Store.loading (store (step s e)) = true) \/
     (exists (r : nat) (payload : UMAPPoints number)
             (points : list (Point number)),
        e = Response r payload /\ queryReference s = Some r /\
        allSourceData (data payload) (referenceData payload)
          (corpusData payload) = inr points /\
        Store.loading (store (step s e)) = false)).
Proof.
  split.
  { intros st events Hloading Hmounted Htrue.
    destruct (run_mounted_loading events (newSession st) Hmounted)
      as [r Hr]; [simpl; congruence | exact Htrue |].
    destruct (run_consistent events _ (newSession_consistent st))
      as (Hseq & _ & Hall & Hcur).
    exists r. split; [exact Hr|].
    destruct (Hcur r Hr) as [Hnotin HS]. split; [|exact Hnotin].
    rewrite Hseq. apply elem_of_seq. lia. }
  split.
  { intros id tr. by destruct (requery_cases id tr s) as (-> & _). }
  split; [reflexivity|]. split.
  { intros r payload points Hr Hpoints. unfold onResponse, PointCloudDisplay.
    rewrite decide_True by exact Hr. rewrite Hpoints. simpl.
    split; reflexivity. }
  split.
  { intros r message. unfold onRequestFailure. by destruct (decide _). }
  split; [by split|].
  intros [id tr| |r payload|r message|c|c| |key]; cbn [step isRequery];
    intros Hchange.
  - left. split; [reflexivity|].
    by destruct (requery_cases id tr s) as (-> & _).
  - by destruct Hchange.
  - right. unfold onResponse, PointCloudDisplay in *.
    destruct (decide (queryReference s = Some r)) as [Hr|Hr];
      [|by destruct Hchange].
    destruct (allSourceData (data payload) (referenceData payload)
                (corpusData payload)) as [err|points] eqn:Hpoints;
      simpl in *; [by destruct Hchange|].
    by exists r, payload, points.
  - exfalso. apply Hchange. unfold onRequestFailure. by destruct (decide _).
  - exfalso. apply Hchange. unfold onClick. simpl. by destruct (decide _).
  - by destruct Hchange.
  - by destruct Hchange.
  - exfalso. apply Hchange. unfold onTabChange. simpl. by destruct (decide _).
Qed.

Lemma loading_follows_the_request_witness :
  let events := [Requery "dimension" Sample.timeRange;
                 Click (Sample.cluster "C" ["c1"]); TabChange "configuration";
                 Response 7 Sample.payload] in
  let s := run events (newSession Sample.initialStore) in
  staysMounted events (newSession Sample.initialStore) /\
  Store.loading (store s) = true /\
  queryReference s = Some 0 /\
  Store.loading (store (onResponse 0 Sample.payload s)) = false /\
  length (Store.points (store (onResponse 0 Sample.payload s))) = 2.
Proof.
  intros events s.
  assert (Hmounted : staysMounted events (newSession Sample.initialStore)).
  { simpl. repeat split; try (intros H; exact H).
    - intros [err Herr]. discriminate Herr.
    - intros [H _]. discriminate H. }
  destruct (loading_follows_the_request s)
    as (Hinvariant & _ & _ & Hresponse & _).
  destruct (Hinvariant Sample.initialStore events eq_refl Hmounted eq_refl)
    as (r & Hr & _).
  split; [exact Hmounted|]. split; [reflexivity|]. split; [reflexivity|].
  destruct (Hresponse 0 Sample.payload _ eq_refl eq_refl) as [Hstore Hloading].
  split; [exact Hloading|]. rewrite Hstore. reflexivity.
Defined.

(** X9: along every execution, a re-query whose variables can be built
    calls [loadQuery] exactly once; the reference the call returns was
    returned by no earlier call and becomes the current one, and the
    variables carry the page's dimension id and time range and the
    hyperparameters of the store. *)
Theorem requery_calls_loadQuery_once {number : Type}
    (st : Store.State number) (events : list (Event number))
    (embeddingDimensionId : string) (timeRange : TimeRange) :
  let s := run events (newSession st) in
  ~ (metricType (Store.metric (store s)) = "dataQuality" /\
     dimension (Store.metric (store s)) = None) ->
  let s' := requery embeddingDimensionId timeRange s in
  exists v : Variables number,
    issued s' = issued s ++ [(nextReference s, v)] /\
    (nextReference s ∉ fst <$> issued s) /\
    queryReference s' = Some (nextReference s) /\
    var_id v = embeddingDimensionId /\
    var_timeRange v = timeRange /\
    minDist v = Store.minDist (Store.umapParameters (store s)) /\
    nNeighbors v = Store.nNeighbors (Store.umapParameters (store s)) /\
    nSamples v = Store.nSamples (Store.umapParameters (store s)) /\
    minClusterSize v
    = Store.minClusterSize (Store.clusteringParameters (store s)) /\
    clusterMinSamples v
    = Store.clusterMinSamples (Store.clusteringParameters (store s)) /\
    clusterSelectionEpsilon v
    = Store.clusterSelectionEpsilon (Store.clusteringParameters (store s)).
Proof.
  intros s Hok s'.
  destruct (run_consistent events _ (newSession_consistent st))
    as (Hseq & _). fold s in Hseq.
  destruct (requery_cases embeddingDimensionId timeRange s)
    as (_ & _ & [(v & Hv & Hq & Hn & Hissued)|(Hthrows & _)]).
  - exists v. apply variablesOf_inr in Hv.
    destruct Hv as (? & ? & ? & ? & ? & ? & ? & ?).
    split; [assumption|]. split; [|repeat split; assumption].
    rewrite Hseq. intros Hin. apply elem_of_seq in Hin. lia.
  - exfalso. apply variablesOf_throws_when in Hthrows. by apply Hok.
Qed.

Lemma requery_calls_loadQuery_once_witness :
  let s := run [Requery "dimension" Sample.timeRange]
             (newSession Sample.initialStore) in
  exists v : Variables Z,
    issued (requery "dimension" Sample.laterTimeRange s)
    = issued s ++ [(1, v)] /\
    (1 ∉ fst <$> issued s) /\
    var_timeRange v = Sample.laterTimeRange.
Proof.
  intros s.
  destruct (requery_calls_loadQuery_once Sample.initialStore
              [Requery "dimension" Sample.timeRange]
              "dimension" Sample.laterTimeRange)
    as (v & Hissued & Hfresh & _ & _ & Hrange & _).
  - intros [H _]. discriminate H.
  - exists v. repeat split; assumption.
Defined.

(** X11: along every execution that starts when the store is created, the
    requests issued carry the references 0, 1, 2, ... in the order in which
    they were issued: each request has a reference of its own. *)
Theorem issued_references_are_consecutive {number : Type}
    (st : Store.State number) (events : list (Event number)) :
  let s := run events (newSession st) in
  fst <$> issued s = seq 0 (length (issued s)) /\
  nextReference s = length (issued s) /\
  NoDup (fst <$> issued s).
Proof.
  intros s.
  destruct (run_consistent events _ (newSession_consistent st))
    as (Hissued & _). fold s in Hissued.
  assert (Hlen : nextReference s = length (issued s)).
  { apply (f_equal length) in Hissued.
    by rewrite length_fmap, length_seq in Hissued. }
  rewrite <- Hlen. split; [exact Hissued|]. split; [reflexivity|].
  rewrite Hissued. apply NoDup_seq.
Qed.

(** X12: along every execution the page never replaces or drops a query
    reference without calling [disposeQuery] on it: a reference that a
    [loadQuery] call returned is either the current one, and then it is the
    one returned last and [disposeQuery] was not called on it, or it is not
    the current one, and then the page called [disposeQuery] while it was
    current. *)
Theorem replaced_references_were_handed_back {number : Type}
    (st : Store.State number) (events : list (Event number))
    (r : nat) (v : Variables number) :
  let s := run events (newSession st) in
  (r, v) ∈ issued s ->
  (queryReference s = Some r /\ (r ∉ disposed s) /\ S r = length (issued s)) \/
  (queryReference s <> Some r /\ r ∈ disposed s).
Proof.
  intros s Hin.
  destruct (run_consistent events _ (newSession_consistent st))
    as (Hseq & _ & Hall & Hcur). fold s in Hseq, Hall, Hcur.
  assert (Hlen : nextReference s = length (issued s)).
  { apply (f_equal length) in Hseq.
    by rewrite length_fmap, length_seq in Hseq. }
  assert (Hlt : r < nextReference s).
  { assert (Hr : r ∈ fst <$> issued s).
    { apply list_elem_of_fmap. by exists (r, v). }
    rewrite Hseq in Hr. apply elem_of_seq in Hr. lia. }
  apply Hall in Hlt as [Hq|Hd].
  - left. destruct (Hcur r Hq) as [Hnotin HS]. rewrite <- Hlen. by repeat split.
  - right. split; [|exact Hd]. intros Hq. by destruct (Hcur r Hq).
Qed.

Lemma replaced_references_were_handed_back_witness :
  let s := run [Requery "dimension" Sample.timeRange;
                Requery "dimension" Sample.laterTimeRange]
             (newSession Sample.initialStore) in
  queryReference s = Some 1 /\ 0 ∈ disposed s.
Proof.
  intros s.
  assert (H0 : exists v, (0, v) ∈ issued s).
  { eexists. apply list_elem_of_here. }
  destruct H0 as [v Hv].
  split; [reflexivity|].
  destruct (replaced_references_were_handed_back Sample.initialStore
              [Requery "dimension" Sample.timeRange;
               Requery "dimension" Sample.laterTimeRange] 0 v Hv)
    as [(Hq & _)|(_ & Hd)].
  - discriminate Hq.
  - exact Hd.
Defined.

(** X13: along every execution no reference is disposed twice, and only
    references of issued requests are disposed. *)
Theorem no_reference_is_disposed_twice {number : Type}
    (st : Store.State number) (events : list (Event number)) :
  let s := run events (newSession st) in
  NoDup (disposed s) /\
  forall r : nat, r ∈ disposed s -> r ∈ fst <$> issued s.
Proof.
  intros s.
  destruct (run_consistent events _ (newSession_consistent st))
    as (Hissued & Hnodup & Hall & _). fold s in Hissued, Hnodup, Hall.
  split; [exact Hnodup|].
  intros r Hr. rewrite Hissued. apply elem_of_seq.
  assert (r < nextReference s) by (apply Hall; by right). lia.
Qed.

Lemma no_reference_is_disposed_twice_witness :
  let s := run [Requery "dimension" Sample.timeRange; Teardown; Teardown]
             (newSession Sample.initialStore) in
  disposed s = [0] /\ 0 ∈ fst <$> issued s.
Proof.
  intros s. split; [reflexivity|].
  destruct (no_reference_is_disposed_twice Sample.initialStore
              [Requery "dimension" Sample.timeRange; Teardown; Teardown])
    as [_ Hin].
  apply Hin. apply list_elem_of_here.
Defined.

(** X14: data with a coordinate record that is not tagged [Point3D] writes
    nothing into the store: no point, cluster or retrieval of it, and
    [loading] keeps its value. When it is the data of the current reference
    the render throws, the page is unmounted and its cleanup calls
    [disposeQuery]; otherwise the session is unchanged. *)
Theorem malformed_response_writes_nothing {number : Type} (r : nat)
    (payload : UMAPPoints number) (s : Session number) :
  Exists (fun d => ~ isPoint3D d)
    (data payload ++ referenceData payload ++ corpusData payload) ->
  store (onResponse r payload s) = store s /\
  (queryReference s = Some r ->
   onResponse r payload s = cleanup s /\
   queryReference (onResponse r payload s) = None /\
   (r ∈ disposed (onResponse r payload s))) /\
  (queryReference s <> Some r -> onResponse r payload s = s).
Proof.
  intros Hbad.
  assert (Hthrows : throws (allSourceData (data payload) (referenceData payload)
                              (corpusData payload))).
  { unfold allSourceData. apply mapE_throws.
    eapply Exists_impl; [exact Hbad|]. intros d Hd. by apply toPoint_throws. }
  destruct Hthrows as [e He].
  unfold onResponse, PointCloudDisplay. rewrite He. simpl.
  destruct (decide (queryReference s = Some r)) as [Hr|Hr].
  - split; [reflexivity|]. split; [|done].
    intros _. split; [reflexivity|]. split; [reflexivity|].
    simpl. rewrite Hr. apply elem_of_app. right. apply list_elem_of_here.
  - split; [reflexivity|]. split; [done | reflexivity].
Qed.

Lemma malformed_response_writes_nothing_witness :
  let s := requery "dimension" Sample.timeRange
             (newSession Sample.initialStore) in
  queryReference s = Some 0 /\
  store (onResponse 0 Sample.malformedPayload s) = store s /\
  queryReference (onResponse 0 Sample.malformedPayload s) = None.
Proof.
  intros s. split; [reflexivity|].
  destruct (malformed_response_writes_nothing 0 Sample.malformedPayload s)
    as (Hstore & Hcurrent & _).
  - apply Exists_cons_tl, Exists_cons_hd. discriminate.
  - split; [exact Hstore|]. by destruct (Hcurrent eq_refl) as (_ & Hq & _).
Defined.

(** ** The clusters panel, continued *)

Lemma onClick_unselected {number : Type} (st : Store.State number)
    (c : Cluster number) :
  Store.selectedClusterId st <> Some (cluster_id c) ->
  onClick c st
  = Store.setSelectedEventIds (list_to_set (cluster_eventIds c))
      (Store.setSelectedClusterId (Some (cluster_id c)) st).
Proof. intros Hne. unfold onClick. by rewrite decide_True. Qed.

Lemma onClick_selected {number : Type} (st : Store.State number)
    (c : Cluster number) :
  Store.selectedClusterId st = Some (cluster_id c) ->
  onClick c st
  = Store.setSelectedEventIds ∅ (Store.setSelectedClusterId None st).
Proof.
  intros Heq. unfold onClick.
  by rewrite decide_False by (intros H; by apply H).
Qed.

(** X15: from the second click on, clicking the same cluster alternates
    between two states: three clicks on a cluster leave the store as one
    click does, whatever was selected before. *)
Theorem onClick_has_period_two {number : Type} (st : Store.State number)
    (c : Cluster number) :
  onClick c (onClick c (onClick c st)) = onClick c st.
Proof.
  destruct (decide (Store.selectedClusterId st = Some (cluster_id c)))
    as [Heq|Hne].
  - rewrite (onClick_selected st c Heq).
    set (cleared := Store.setSelectedEventIds ∅
                      (Store.setSelectedClusterId None st)).
    rewrite (onClick_unselected cleared c) by (simpl; discriminate).
    by rewrite onClick_selected.
  - rewrite (onClick_unselected st c Hne).
    set (selected := Store.setSelectedEventIds _ _).
    rewrite (onClick_selected selected c) by reflexivity.
    by rewrite onClick_unselected by (simpl; discriminate).
Qed.

Lemma NoDup_fmap_inj_on {A B : Type} (f : A -> B) (l : list A) (x y : A) :
  NoDup (f <$> l) -> x ∈ l -> y ∈ l -> f x = f y -> x = y.
Proof.
  induction l as [|a l IH]; simpl; intros Hnodup Hx Hy Hxy.
  - by apply elem_of_nil in Hx.
  - apply NoDup_cons in Hnodup as [Ha Hnodup].
    apply elem_of_cons in Hx as [->|Hx]; apply elem_of_cons in Hy as [->|Hy].
    + reflexivity.
    + exfalso. apply Ha. rewrite Hxy. by apply list_elem_of_fmap_2.
    + exfalso. apply Ha. rewrite <- Hxy. by apply list_elem_of_fmap_2.
    + by apply IH.
Qed.

(** X16: when the clusters have distinct ids, at most one [ClusterItem] is
    rendered as selected, in every state of the store; when no cluster is
    selected, none is. *)
Theorem at_most_one_item_is_selected {number : Type} (st : Store.State number)
    (clusters : list (Cluster number)) (c1 c2 : Cluster number) :
  NoDup (cluster_id <$> clusters) ->
  c1 ∈ clusters -> c2 ∈ clusters ->
  (isSelected st c1 = true -> isSelected st c2 = true -> c1 = c2) /\
  (Store.selectedClusterId st = None -> isSelected st c1 = false).
Proof.
  intros Hnodup H1 H2. unfold isSelected. split.
  - rewrite !bool_decide_eq_true. intros Hs1 Hs2.
    apply (NoDup_fmap_inj_on cluster_id clusters); [done..|congruence].
  - intros ->. by apply bool_decide_eq_false.
Qed.

Lemma at_most_one_item_is_selected_witness :
  isSelected Sample.storeWithSelection (Sample.cluster "D" ["d1"]) = true /\
  isSelected Sample.storeWithSelection (Sample.cluster "C" ["c1"; "c2"; "c1"])
  = false.
Proof.
  split; [reflexivity|].
  destruct (isSelected Sample.storeWithSelection
              (Sample.cluster "C" ["c1"; "c2"; "c1"])) eqn:HC; [|reflexivity].
  exfalso.
  destruct (at_most_one_item_is_selected Sample.storeWithSelection
              (Store.clusters Sample.storeWithSelection)
              (Sample.cluster "C" ["c1"; "c2"; "c1"])
              (Sample.cluster "D" ["d1"])) as [Hsame _].
  - simpl. repeat constructor; set_solver.
  - simpl. apply list_elem_of_here.
  - simpl. apply list_elem_of_further, list_elem_of_here.
  - specialize (Hsame HC eq_refl). discriminate Hsame.
Defined.

(** X17: with distinct cluster ids, a click on an unselected cluster of the
    list makes exactly that cluster's item the selected one, and a second
    click leaves no item selected. *)
Theorem click_selects_exactly_the_clicked_item {number : Type}
    (st : Store.State number) (c c' : Cluster number) :
  NoDup (cluster_id <$> Store.clusters st) ->
  c ∈ Store.clusters st -> c' ∈ Store.clusters st ->
  Store.selectedClusterId st <> Some (cluster_id c) ->
  (isSelected (onClick c st) c' = true <-> c' = c) /\
  isSelected (onClick c (onClick c st)) c' = false.
Proof.
  intros Hnodup Hc Hc' Hne.
  rewrite (onClick_selected (onClick c st) c)
    by (by rewrite (onClick_unselected st c Hne)).
  rewrite (onClick_unselected st c Hne).
  unfold isSelected. simpl. split.
  - rewrite bool_decide_eq_true. split.
    + intros [= Heq].
      by apply (NoDup_fmap_inj_on cluster_id (Store.clusters st)).
    + by intros ->.
  - reflexivity.
Qed.

Lemma click_selects_exactly_the_clicked_item_witness :
  let C := Sample.cluster "C" ["c1"; "c2"; "c1"] in
  let D := Sample.cluster "D" ["d1"] in
  isSelected (onClick C Sample.storeWithSelection) C = true /\
  isSelected (onClick C Sample.storeWithSelection) D = false.
Proof.
  intros C D. split; [reflexivity|].
  destruct (isSelected (onClick C Sample.storeWithSelection) D) eqn:HD;
    [|reflexivity].
  exfalso.
  destruct (click_selects_exactly_the_clicked_item Sample.storeWithSelection
              C D) as [Hiff _].
  - simpl. repeat constructor; set_solver.
  - simpl. apply list_elem_of_here.
  - simpl. apply list_elem_of_further, list_elem_of_here.
  - simpl. discriminate.
  - apply Hiff in HD. discriminate HD.
Defined.

Lemma size_list_to_set_le (l : list string) :
  size (list_to_set l : gset string) <= length l /\
  (size (list_to_set l : gset string) = length l <-> NoDup l).
Proof.
  induction l as [|x l [IHle IHeq]].
  - rewrite list_to_set_nil, size_empty. simpl.
    split; [lia|]. split; [intros _; constructor | reflexivity].
  - rewrite list_to_set_cons. simpl.
    destruct (decide (x ∈ l)) as [Hin|Hnotin].
    + assert (Hsame : ({[x]} ∪ list_to_set l : gset string) = list_to_set l).
      { apply subseteq_union_1_L. apply singleton_subseteq_l.
        by apply elem_of_list_to_set. }
      rewrite Hsame. split; [lia|]. split; [lia|].
      intros Hnodup. apply NoDup_cons in Hnodup as [Hx _]. by destruct Hx.
    + rewrite size_union
        by (apply disjoint_singleton_l; by rewrite elem_of_list_to_set).
      rewrite size_singleton.
      split; [lia|]. rewrite NoDup_cons. split.
      * intros H. split; [exact Hnotin|]. apply IHeq. lia.
      * intros [_ H]. apply IHeq in H. lia.
Qed.

(** X18: after a click on an unselected cluster the number of selected
    events is at most the [numPoints] shown on the cluster's item, and it is
    equal to it exactly when the cluster's event ids are distinct. *)
Theorem selection_size_is_bounded_by_numPoints {number : Type}
    (st : Store.State number) (c : Cluster number) :
  Store.selectedClusterId st <> Some (cluster_id c) ->
  size (Store.selectedEventIds (onClick c st)) <= numPoints c /\
  (size (Store.selectedEventIds (onClick c st)) = numPoints c
   <-> NoDup (cluster_eventIds c)).
Proof.
  intros Hne. rewrite (onClick_unselected st c Hne). simpl.
  apply size_list_to_set_le.
Qed.

Lemma selection_size_is_bounded_by_numPoints_witness :
  let C := Sample.cluster "C" ["c1"; "c2"; "c1"] in
  numPoints C = 3 /\
  size (Store.selectedEventIds (onClick C Sample.storeWithSelection)) < 3.
Proof.
  intros C. split; [reflexivity|].
  destruct (selection_size_is_bounded_by_numPoints Sample.storeWithSelection C)
    as [Hle Heq]; [simpl; discriminate|].
  assert (Hdup : ~ NoDup (cluster_eventIds C)).
  { simpl. intros H. apply NoDup_cons in H as [H _]. apply H.
    apply list_elem_of_further, list_elem_of_here. }
  change (numPoints C) with 3 in Hle, Heq.
  destruct (decide (size (Store.selectedEventIds
                            (onClick C Sample.storeWithSelection)) = 3))
    as [H3|H3]; [by apply Heq in H3 | lia].
Defined.

(** X19: after a click on an unselected cluster the selection panel is
    rendered exactly when the cluster has at least one event; after a click
    on the selected cluster it is not rendered. *)
Theorem SelectionPanel_after_click {number : Type}
    (st : Store.State number) (c : Cluster number) :
  (Store.selectedClusterId st <> Some (cluster_id c) ->
   (SelectionPanel (onClick c st) = None <-> cluster_eventIds c = [])) /\
  (Store.selectedClusterId st = Some (cluster_id c) ->
   SelectionPanel (onClick c st) = None).
Proof.
  unfold SelectionPanel. split.
  - intros Hne. rewrite (onClick_unselected st c Hne).
    cbn [Store.selectedEventIds Store.setSelectedEventIds].
    destruct (cluster_eventIds c) as [|x l].
    + rewrite list_to_set_nil, size_empty, decide_True by reflexivity. done.
    + rewrite decide_False; [split; discriminate|].
      apply size_non_empty_iff. rewrite list_to_set_cons.
      intros Hempty. apply (not_elem_of_empty (C := gset string) x).
      rewrite <- Hempty. apply elem_of_union_l. by apply elem_of_singleton.
  - intros Heq. rewrite (onClick_selected st c Heq).
    cbn [Store.selectedEventIds Store.setSelectedEventIds].
    by rewrite size_empty, decide_True.
Qed.

Lemma SelectionPanel_after_click_witness :
  SelectionPanel (onClick (Sample.cluster "C" ["c1"; "c2"; "c1"])
                    Sample.storeWithSelection) <> None /\
  SelectionPanel (onClick (Sample.cluster "D" ["d1"])
                    Sample.storeWithSelection) = None.
Proof.
  destruct (SelectionPanel_after_click Sample.storeWithSelection
              (Sample.cluster "C" ["c1"; "c2"; "c1"])) as [HC _].
  destruct (SelectionPanel_after_click Sample.storeWithSelection
              (Sample.cluster "D" ["d1"])) as [_ HD].
  split.
  - intros H. apply HC in H; [discriminate H | simpl; discriminate].
  - by apply HD.
Defined.

(** X20: hovering, clicking and changing the tab do not interfere. A hover
    changes neither the selection nor the color mode, and a click or a tab
    change does not change the highlight. After entering and leaving a
    cluster row the highlight is null, which is the state before the hover
    exactly when nothing was highlighted. A click, a tab change and either
    hover handler commute pairwise; entering and leaving do not commute. *)
Theorem handlers_do_not_interfere {number : Type} (st : Store.State number)
    (c d : Cluster number) (key : string) :
  (Store.selectedClusterId (onMouseEnter d st) = Store.selectedClusterId st /\
   Store.selectedEventIds (onMouseEnter d st) = Store.selectedEventIds st /\
   Store.colorMode (onMouseEnter d st) = Store.colorMode st /\
   Store.highlightedClusterId (onMouseEnter d st) = Some (cluster_id d)) /\
  (Store.selectedClusterId (onMouseLeave st) = Store.selectedClusterId st /\
   Store.selectedEventIds (onMouseLeave st) = Store.selectedEventIds st /\
   Store.colorMode (onMouseLeave st) = Store.colorMode st /\
   Store.highlightedClusterId (onMouseLeave st) = None) /\
  (Store.highlightedClusterId (onClick c st) = Store.highlightedClusterId st /\
   Store.highlightedClusterId (onTabChange key st)
   = Store.highlightedClusterId st) /\
  (onMouseLeave (onMouseEnter d st) = onMouseLeave st /\
   (onMouseLeave (onMouseEnter d st) = st
    <-> Store.highlightedClusterId st = None)) /\
  (onClick c (onMouseEnter d st) = onMouseEnter d (onClick c st) /\
   onClick c (onMouseLeave st) = onMouseLeave (onClick c st) /\
   onClick c (onTabChange key st) = onTabChange key (onClick c st) /\
   onMouseEnter d (onTabChange key st) = onTabChange key (onMouseEnter d st) /\
   onMouseLeave (onTabChange key st) = onTabChange key (onMouseLeave st)) /\
  onMouseEnter d (onMouseLeave st) <> onMouseLeave (onMouseEnter d st).
Proof.
  split; [by repeat split|]. split; [by repeat split|].
  split.
  { unfold onClick, onTabChange. split; by destruct (decide _). }
  split.
  { split; [reflexivity|]. split.
    - intros <-. reflexivity.
    - intros Hnone. unfold onMouseLeave, onMouseEnter,
        Store.setHighlightedClusterId. simpl.
      destruct st; simpl in *; subst; reflexivity. }
  split.
  { unfold onClick, onTabChange, onMouseEnter, onMouseLeave. simpl.
    destruct (decide (key = "configuration")); simpl;
      destruct (decide (Store.selectedClusterId st ≠ Some (cluster_id c)));
      repeat split. }
  intros H. apply (f_equal Store.highlightedClusterId) in H. discriminate H.
Qed.

(** ** The notifications *)

(** X21: a notification is raised exactly when the store holds an error
    message, and it carries that message; handling its Dismiss action leaves
    a store for which no notification is raised, and changes no field of the
    store but the error message. *)
Theorem dismiss_clears_the_notification {number : Type}
    (st : Store.State number) :
  (PointCloudNotifications st = None <-> Store.errorMessage st = None) /\
  (forall n : Notification,
     PointCloudNotifications st = Some n ->
     Store.errorMessage st = Some (message n) /\
     title n = "An error occurred" /\ actionText n = "Dismiss") /\
  PointCloudNotifications (onDismiss st) = None /\
  Store.errorMessage (onDismiss st) = None /\
  onDismiss (onDismiss st) = onDismiss st /\
  (Store.points (onDismiss st) = Store.points st /\
   Store.clusters (onDismiss st) = Store.clusters st /\
   Store.retrievals (onDismiss st) = Store.retrievals st /\
   Store.selectedClusterId (onDismiss st) = Store.selectedClusterId st /\
   Store.selectedEventIds (onDismiss st) = Store.selectedEventIds st /\
   Store.highlightedClusterId (onDismiss st) = Store.highlightedClusterId st /\
   Store.loading (onDismiss st) = Store.loading st /\
   Store.colorMode (onDismiss st) = Store.colorMode st /\
   Store.metric (onDismiss st) = Store.metric st /\
   Store.umapParameters (onDismiss st) = Store.umapParameters st /\
   Store.clusteringParameters (onDismiss st) = Store.clusteringParameters st) /\
  (Store.errorMessage st = None -> onDismiss st = st).
Proof.
  unfold PointCloudNotifications, onDismiss.
  split; [|split; [|split; [|split; [|split; [|split]]]]].
  - destruct (Store.errorMessage st) as [m|]; split; done.
  - intros n Hn. destruct (Store.errorMessage st) as [m|]; [|discriminate Hn].
    injection Hn as <-. repeat split.
  - reflexivity.
  - reflexivity.
  - reflexivity.
  - repeat split.
  - intros Hnone. destruct st; simpl in *; subst; reflexivity.
Qed.

Lemma dismiss_clears_the_notification_witness :
  let st := Store.setErrorMessage (Some "Failed to fetch") Sample.initialStore in
  exists n : Notification,
    PointCloudNotifications st = Some n /\
    Store.errorMessage st = Some (message n) /\
    message n = "Failed to fetch".
Proof.
  intros st. eexists. split; [reflexivity|].
  destruct (dismiss_clears_the_notification st) as (_ & Hn & _).
  split; [exact (proj1 (Hn _ eq_refl)) | reflexivity].
Defined.

(** ** The initial props of the store *)

(** X22: whatever preset is chosen, the [umapParameters] the store starts
    with are those of the server configuration, every other prop is the
    preset's, and the preset is the retrieval one as soon as there is a
    corpus, whether or not there is a reference. *)
Theorem defaultPointCloudProps_takes_umap_from_config {Value : Type}
    (retrieval drift single : gmap string Value) (ConfigUMAP : Value)
    (corpusInferences referenceInferences : option Inferences) :
  let props := defaultPointCloudProps retrieval drift single ConfigUMAP
                 corpusInferences referenceInferences in
  let preset := match corpusInferences, referenceInferences with
                | Some _, _ => retrieval
                | None, Some _ => drift
                | None, None => single
                end in
  props !! "umapParameters" = Some ConfigUMAP /\
  (forall key : string, key <> "umapParameters" -> props !! key = preset !! key) /\
  dom props = {["umapParameters"]} ∪ dom preset /\
  (is_Some corpusInferences ->
   props = defaultPointCloudProps retrieval drift single ConfigUMAP
             corpusInferences None).
Proof.
  intros props preset. unfold props, defaultPointCloudProps. fold preset.
  split; [apply lookup_insert_eq|].
  split; [intros key Hkey; by apply lookup_insert_ne|].
  split; [apply dom_insert_L|].
  intros [c ->]. reflexivity.
Qed.

Lemma defaultPointCloudProps_takes_umap_from_config_witness :
  let props := defaultPointCloudProps
                 (<["umapParameters" := 1%Z]> (<["metric" := 2%Z]> ∅))
                 ∅ ∅ 7%Z (Some Sample.primaryInferences) None in
  props !! "umapParameters" = Some 7%Z /\ props !! "metric" = Some 2%Z.
Proof.
  intros props.
  destruct (defaultPointCloudProps_takes_umap_from_config
              (<["umapParameters" := 1%Z]> (<["metric" := 2%Z]> ∅))
              ∅ ∅ 7%Z (Some Sample.primaryInferences) None)
    as (Humap & Hother & _).
  split; [exact Humap|].
  unfold props. rewrite Hother by discriminate.
  rewrite lookup_insert_ne by discriminate. apply lookup_insert_eq.
Defined.

(** ** The data in the store *)

(** X23: along every execution that starts with an empty store, the points,
    clusters and retrievals of the store are either all empty or all taken
    from one and the same response that arrived: the points are its
    normalized points, the clusters and retrievals are its own. Data of two
    responses is never mixed. *)
Theorem data_comes_from_one_response {number : Type}
    (st : Store.State number) (events : list (Event number)) :
  Store.points st = [] -> Store.clusters st = [] -> Store.retrievals st = [] ->
  let s := run events (newSession st) in
  (Store.points (store s) = [] /\ Store.clusters (store s) = [] /\
   Store.retrievals (store s) = []) \/
  (exists (r : nat) (payload : UMAPPoints number),
     Response r payload ∈ events /\
     allSourceData (data payload) (referenceData payload) (corpusData payload)
     = inr (Store.points (store s)) /\
     Store.clusters (store s) = clusters payload /\
     Store.retrievals (store s) = contextRetrievals payload).
Proof.
  intros Hp Hc Hr. induction events as [|e events IH] using rev_ind.
  - left. by repeat split.
  - simpl in IH. intros s. unfold s. rewrite run_app.
    set (s0 := run events (newSession st)) in *. simpl.
    assert (Hkeep : store (step s0 e) = store s0 \/
                    (Store.points (store (step s0 e)) = Store.points (store s0) /\
                     Store.clusters (store (step s0 e))
                     = Store.clusters (store s0) /\
                     Store.retrievals (store (step s0 e))
                     = Store.retrievals (store s0)) ->
            (Store.points (store (step s0 e)) = [] /\
             Store.clusters (store (step s0 e)) = [] /\
             Store.retrievals (store (step s0 e)) = []) \/
            (exists (r : nat) (payload : UMAPPoints number),
               Response r payload ∈ events ++ [e] /\
               allSourceData (data payload) (referenceData payload)
                 (corpusData payload)
               = inr (Store.points (store (step s0 e))) /\
               Store.clusters (store (step s0 e)) = clusters payload /\
               Store.retrievals (store (step s0 e)) = contextRetrievals payload)).
    { intros Hsame.
      assert (Hfields : Store.points (store (step s0 e)) = Store.points (store s0) /\
                        Store.clusters (store (step s0 e))
                        = Store.clusters (store s0) /\
                        Store.retrievals (store (step s0 e))
                        = Store.retrievals (store s0)).
      { destruct Hsame as [->|H]; [by repeat split | exact H]. }
      destruct Hfields as (-> & -> & ->).
      destruct IH as [IH|(r & payload & Hin & IH)]; [by left|].
      right. exists r, payload. split; [|exact IH].
      apply elem_of_app. by left. }
    destruct e as [id tr| |r payload|r message|c|c| |key]; cbn [step] in *.
    + left. destruct (requery_cases id tr s0) as (-> & _). by repeat split.
    + apply Hkeep. by left.
    + unfold onResponse in *. case_decide; [|apply Hkeep; by left].
      unfold PointCloudDisplay in *.
      destruct (allSourceData (data payload) (referenceData payload)
                  (corpusData payload)) as [err|out] eqn:Hout; simpl in *.
      * apply Hkeep. by left.
      * right. exists r, payload. split; [|by repeat split].
        apply elem_of_app. right. apply list_elem_of_here.
    + unfold onRequestFailure in *. case_decide; apply Hkeep; [|by left].
      right. by repeat split.
    + apply Hkeep. right. unfold onClick. simpl.
      destruct (decide _); by repeat split.
    + apply Hkeep. right. by repeat split.
    + apply Hkeep. right. by repeat split.
    + apply Hkeep. right. unfold onTabChange. simpl.
      destruct (decide _); by repeat split.
Qed.

Lemma data_comes_from_one_response_witness :
  let s := run [Requery "dimension" Sample.timeRange;
                Response 0 Sample.payload; Teardown]
             (newSession Sample.initialStore) in
  length (Store.points (store s)) = 2 /\
  exists (r : nat) (payload : UMAPPoints Z),
    allSourceData (data payload) (referenceData payload) (corpusData payload)
    = inr (Store.points (store s)) /\
    Store.clusters (store s) = clusters payload.
Proof.
  intros s. split; [reflexivity|].
  destruct (data_comes_from_one_response Sample.initialStore
              [Requery "dimension" Sample.timeRange;
               Response 0 Sample.payload; Teardown] eq_refl eq_refl eq_refl)
    as [(Hempty & _)|(r & payload & _ & Hpoints & Hclusters & _)].
  - discriminate Hempty.
  - exists r, payload. split; [exact Hpoints | exact Hclusters].
Defined.
